(** * PersistentChat: history injection and context merging

    A shallow embedding of [main.py] (class [PersistentChatPlugin]):
    the turn normalizer [_process_message_chain], the row store behind
    [_save_log_to_db] and the [SELECT] of [inject_chat_history], and the
    context reconstruction performed by [inject_chat_history] itself.

    - A Python [str] is a list of Unicode code points ([N]).
    - Python list objects that the handler shares with the framework
      ([req.contexts]) live in a store of list objects, so that two names
      for one list see each other's mutations.
    - [try/except] is an error monad over that store. *)

From Stdlib Require Import NArith ZArith Ascii String DecimalString Lia.
From stdpp Require Import base option list gmap.

Local Open Scope N_scope.

(** ** Python strings *)

Abbreviation str := (list N).

Module Utf8.

(** Source literals are written as UTF-8 byte strings and decoded to the
    code points Python manipulates. *)
Fixpoint decode (need : nat) (acc : N) (bs : list N) : str :=
  match bs with
  | [] => []
  | b :: tl =>
      match need with
      | S k =>
          let acc' := acc * 64 + b mod 64 in
          match k with
          | O => acc' :: decode O 0 tl
          | S _ => decode k acc' tl
          end
      | O =>
          if b <? 128 then b :: decode O 0 tl
          else if b <? 224 then decode 1 (b mod 32) tl
          else if b <? 240 then decode 2 (b mod 16) tl
          else decode 3 (b mod 8) tl
      end
  end.

Fixpoint bytes (s : string) : list N :=
  match s with
  | EmptyString => []
  | String a tl => N_of_ascii a :: bytes tl
  end.

End Utf8.

Definition utf8 (s : string) : str := Utf8.decode O 0 (Utf8.bytes s).
Arguments utf8 s%_string.

Module Py.

(** [str.isspace] for one code point (the set [str.strip] removes). *)
Definition isspace (c : N) : bool :=
  ((9 <=? c) && (c <=? 13)) || ((28 <=? c) && (c <=? 32))
  || (c =? 133) || (c =? 160) || (c =? 5760)
  || ((8192 <=? c) && (c <=? 8202))
  || (c =? 8232) || (c =? 8233) || (c =? 8239) || (c =? 8287)
  || (c =? 12288).

Fixpoint lstrip (s : str) : str :=
  match s with
  | [] => []
  | c :: tl => if isspace c then lstrip tl else s
  end.

Fixpoint rstrip (s : str) : str :=
  match s with
  | [] => []
  | c :: tl =>
      match rstrip tl with
      | [] => if isspace c then [] else [c]
      | r => c :: r
      end
  end.

(** [s.strip()] *)
Definition strip (s : str) : str := rstrip (lstrip s).

(** [sep.join(l)] *)
Fixpoint join (sep : str) (l : list str) : str :=
  match l with
  | [] => []
  | [x] => x
  | x :: tl => x ++ sep ++ join sep tl
  end.

(** [s * n] *)
Fixpoint repeat_str (s : str) (n : nat) : str :=
  match n with
  | O => []
  | S k => s ++ repeat_str s k
  end.

(** [s.startswith(p)], returning the remainder when it holds. *)
Fixpoint strip_prefix (p s : str) : option str :=
  match p, s with
  | [], _ => Some s
  | a :: p', b :: s' => if a =? b then strip_prefix p' s' else None
  | _ :: _, [] => None
  end.

Definition startswith (s p : str) : bool :=
  match strip_prefix p s with Some _ => true | None => false end.

(** Truthiness of a string and of an optional string ([None] and [""]
    are falsy). *)
Definition truthy (s : str) : bool :=
  match s with [] => false | _ => true end.

Definition truthy_opt (o : option str) : bool :=
  match o with Some s => truthy s | None => false end.

(** [a or b] on optional strings. *)
Definition or_else (a b : option str) : option str :=
  if truthy_opt a then a else b.

Definition str_eqb (a b : str) : bool := bool_decide (a = b).

End Py.

(** ** The image marker pattern [re.compile(r"\[图片:([^\]]+)\]")] *)

Module ImagePattern.

Definition rbracket : N := 93.
Definition marker_open : str := utf8 "[图片:".

(** The greedy class [[^\]]+]: the longest run without [']'], and what
    follows it. *)
Fixpoint span_name (s : str) : str * str :=
  match s with
  | [] => ([], [])
  | c :: tl =>
      if c =? rbracket then ([], s)
      else let '(g, r) := span_name tl in (c :: g, r)
  end.

(** A match anchored at the head of [s]: group 1 and the length of the
    whole match.  After the greedy run the next character is [']'] or the
    end of the string, so backtracking cannot find another match. *)
Definition match_here (s : str) : option (str * nat) :=
  match Py.strip_prefix marker_open s with
  | None => None
  | Some r =>
      match span_name r with
      | (c :: g, _ :: _) =>
          Some (c :: g, (length marker_open + length (c :: g) + 1)%nat)
      | _ => None
      end
  end.

(** Left-to-right scan for non-overlapping matches.  [skip] counts the
    characters of the current match that are still to be passed over. *)
Fixpoint findall_from (skip : nat) (s : str) : list str :=
  match s with
  | [] => []
  | _ :: tl =>
      match skip with
      | S k => findall_from k tl
      | O =>
          match match_here s with
          | Some (g, n) => g :: findall_from (pred n) tl
          | None => findall_from O tl
          end
      end
  end.

Fixpoint sub_from (skip : nat) (s : str) : str :=
  match s with
  | [] => []
  | c :: tl =>
      match skip with
      | S k => sub_from k tl
      | O =>
          match match_here s with
          | Some (_, n) => sub_from (pred n) tl
          | None => c :: sub_from O tl
          end
      end
  end.

(** [image_pattern.findall(s)] *)
Definition findall (s : str) : list str := findall_from O s.

(** [image_pattern.sub("", s)] *)
Definition sub_empty (s : str) : str := sub_from O s.

End ImagePattern.

(** ** Data model *)

(** Message components handed over by the framework. *)
Inductive BaseMessageComponent :=
| Plain (text : str)
| Image (url file : option str)
| OtherComponent.

(** A row of table [chat_logs]; the table is the list of its rows in
    rowid (insertion) order. *)
Record chat_log := ChatLog {
  session_id : str;
  sender_id : str;
  sender_name : option str;
  message_text : str;
  timestamp : Z }.

(** The columns the [SELECT] of [inject_chat_history] returns. *)
Record history_row := HistoryRow {
  row_sender_id : str;
  row_sender_name : option str;
  row_message_text : str }.

(** A content part: [{"type": "text", "text": t}] or
    [{"type": "image_url", "image_url": {"url": u}}]. *)
Inductive part :=
| TextPart (text : str)
| ImageUrl (url : str).

(** The ['content'] of a context entry: a plain string or a list of
    parts. *)
Inductive content :=
| Str (s : str)
| Parts (l : list part).

(** A context entry [{'role': r, 'content': c}]. *)
Record entry := Entry { role : str; entry_content : content }.

Definition set_content (c : content) (e : entry) : entry :=
  {| role := role e; entry_content := c |}.

#[global] Instance part_eq_dec : EqDecision part.
Proof. solve_decision. Defined.
#[global] Instance content_eq_dec : EqDecision content.
Proof. solve_decision. Defined.
#[global] Instance entry_eq_dec : EqDecision entry.
Proof. solve_decision. Defined.

(** ** Literals of the source *)

Module Lit.
Definition space : str := utf8 " ".
Definition download_failed : str := utf8 "[图片下载失败]".
Definition user_sent_image : str := utf8 "[用户发送了图片]".
Definition latest_only_image : str := utf8 "[用户最新消息只发送了图片]".
Definition image_glyph : str := utf8 "[图片]".
Definition user : str := utf8 "user".
Definition assistant : str := utf8 "assistant".
Definition default_name : str := utf8 "User".
Definition colon_space : str := utf8 ": ".
Definition http : str := utf8 "http://".
Definition https : str := utf8 "https://".
Definition images_dir : str := utf8 "data/persistent_chat/images".
Definition data_scheme : str := utf8 "data:".
Definition base64_tag : str := utf8 ";base64,".
Definition image_png : str := utf8 "image/png".
End Lit.

(** [f"[图片:{saved_filename}]"] *)
Definition marker (filename : str) : str :=
  ImagePattern.marker_open ++ filename ++ [ImagePattern.rbracket].

(** ** Media store *)

(** The outside world the plugin reads.  [http_save u] is the outcome of
    lines 58-71 of [_download_image] for URL [u]: the name the body was
    saved under, or [None] for a non-200 status or an exception.
    [path_exists] is [os.path.exists], [guess_type] the first component of
    [mimetypes.guess_type], and [read_base64 p] the base64 text of the
    bytes of file [p], or [None] when opening or reading it raises. *)
Record world := World {
  http_save : str -> option str;
  path_exists : str -> bool;
  guess_type : str -> option str;
  read_base64 : str -> option str }.

Definition _download_image (w : world) (url : str) : option str :=
  if negb (Py.truthy url)
     || negb (Py.startswith url Lit.http || Py.startswith url Lit.https)
  then None
  else http_save w url.

(** [f"data:{mime_type};base64,{encoded_string}"] *)
Definition data_uri (mime_type encoded_string : str) : str :=
  Lit.data_scheme ++ mime_type ++ Lit.base64_tag ++ encoded_string.

Definition _path_to_base64 (w : world) (file_path : str) : option str :=
  if negb (path_exists w file_path) then None
  else
    let mime_type :=
      if Py.truthy_opt (guess_type w file_path)
      then default [] (guess_type w file_path)
      else Lit.image_png in
    match read_base64 w file_path with
    | Some encoded_string => Some (data_uri mime_type encoded_string)
    | None => None
    end.

(** [os.path.join(self.images_dir, filename)] (POSIX). *)
Definition os_path_join (dir filename : str) : str :=
  match filename with
  | 47 :: _ => filename
  | _ => dir ++ [47] ++ filename
  end.

(** ** Turn normalizer *)

(** What one component appends to [parts] (lines 90-96). *)
Definition fragment (w : world) (comp : BaseMessageComponent) : option str :=
  match comp with
  | Plain text =>
      if Py.truthy (Py.strip text) then Some (Py.strip text) else None
  | Image url file =>
      match Py.or_else url file with
      | Some url_to_download =>
          if Py.truthy url_to_download then
            let saved_filename := _download_image w url_to_download in
            Some (if Py.truthy_opt saved_filename
                  then marker (default [] saved_filename)
                  else Lit.download_failed)
          else None
      | None => None
      end
  | OtherComponent => None
  end.

Definition _process_message_chain (w : world)
    (chain : list BaseMessageComponent) : str :=
  Py.strip (Py.join Lit.space (omap (fragment w) chain)).

(** ** Record store *)

(** What [sqlite3] accepts as a statement parameter. *)
Module Sqlite.

(** An integer is bound when it fits 64 signed bits; [execute] raises
    [OverflowError] otherwise. *)
Definition fits_int64 (n : Z) : bool :=
  ((-9223372036854775808 <=? n) && (n <=? 9223372036854775807))%Z.

(** A string is bound when it encodes as UTF-8, that is when it holds no
    surrogate code point; [execute] raises [UnicodeEncodeError]
    otherwise. *)
Definition encodable (s : str) : bool :=
  forallb (fun c => negb ((55296 <=? c) && (c <=? 57343))) s.

(** [None] is bound as NULL. *)
Definition encodable_opt (o : option str) : bool :=
  match o with Some s => encodable s | None => true end.

End Sqlite.

(** [self.db_cursor] is [None] when [_setup_database_and_dirs] failed; the
    [AttributeError] of [_save_log_to_db] is then swallowed by its own
    handler, and so is the exception of a parameter that cannot be
    bound: in both cases no row is inserted. *)
Definition _save_log_to_db (db_cursor : option (list chat_log))
    (sid sender : str) (name : option str) (text : str) (now : Z)
  : option (list chat_log) :=
  if negb (Py.truthy text) then db_cursor
  else match db_cursor with
       | Some table =>
           if Sqlite.encodable sid && Sqlite.encodable sender
              && Sqlite.encodable_opt name && Sqlite.encodable text
              && Sqlite.fits_int64 now
           then Some (table ++ [ChatLog sid sender name text now])
           else Some table
       | None => None
       end.

(** [ORDER BY timestamp DESC]: the query names no second key.  SQLite
    sorts the rows in scan (rowid) order with a stable sorter, so rows of
    equal timestamp come out oldest first. *)
Fixpoint insert_by_timestamp (r : chat_log) (sorted : list chat_log)
  : list chat_log :=
  match sorted with
  | [] => [r]
  | y :: tl =>
      if (timestamp y <=? timestamp r)%Z then r :: y :: tl
      else y :: insert_by_timestamp r tl
  end.

Definition order_by_timestamp_desc (rows : list chat_log) : list chat_log :=
  foldr insert_by_timestamp [] rows.

(** [LIMIT n]: a negative [n] means no limit. *)
Definition sql_limit {A} (n : Z) (rows : list A) : list A :=
  if (n <? 0)%Z then rows else take (Z.to_nat n) rows.

Definition project (r : chat_log) : history_row :=
  HistoryRow (sender_id r) (sender_name r) (message_text r).

(** [SELECT sender_id, sender_name, message_text FROM chat_logs
     WHERE session_id = ? ORDER BY timestamp DESC LIMIT ?] *)
Definition select_recent (table : list chat_log) (sid : str) (limit : Z)
  : list chat_log :=
  sql_limit limit
    (order_by_timestamp_desc
       (filter (fun r => session_id r = sid) table)).

(** [ORDER BY id DESC], as [view_history] asks for. *)
Definition select_recent_by_id (table : list chat_log) (sid : str)
    (limit : Z) : list chat_log :=
  sql_limit limit (rev (filter (fun r => session_id r = sid) table)).

(** ** Context reconstruction: the pure steps of [inject_chat_history] *)

(** A text-only rendering [{'role': r, 'content': s}] (side channel). *)
Record text_entry := TextEntry { text_role : str; text_content : str }.

Definition nonempty {A} (l : list A) : bool :=
  match l with [] => false | _ => true end.

(** The image parts of the files that still resolve, in marker order
    (lines 166-169 and 204-207). *)
Definition image_parts (w : world) (image_filenames : list str) : list part :=
  omap (fun filename =>
          let image_path := os_path_join Lit.images_dir filename in
          let base64_uri := _path_to_base64 w image_path in
          if Py.truthy_opt base64_uri
          then Some (ImageUrl (default [] base64_uri))
          else None)
       image_filenames.

(** Lines 161-163: [text_part] of a history row. *)
Definition history_text_part (message_text : str) : str :=
  let image_filenames := ImagePattern.findall message_text in
  let text_part := Py.strip (ImagePattern.sub_empty message_text) in
  if nonempty image_filenames && negb (Py.truthy text_part)
  then Lit.user_sent_image
  else text_part.

(** Lines 165-170: [content_list] as it stands at line 171. *)
Definition content_list (w : world) (message_text : str) : list part :=
  let image_filenames := ImagePattern.findall message_text in
  let text_part := history_text_part message_text in
  image_parts w image_filenames
  ++ (if Py.truthy text_part then [TextPart text_part] else []).

(** Lines 177-178. *)
Definition prefix_name (display_name : str) (cl : list part) : list part :=
  match cl with
  | TextPart t :: tl => TextPart (display_name ++ Lit.colon_space ++ t) :: tl
  | _ => TextPart (display_name ++ Lit.colon_space) :: cl
  end.

Definition role_of (bot_self_id sender : str) : str :=
  if Py.str_eqb sender bot_self_id then Lit.assistant else Lit.user.

(** [sender_name or "User"] *)
Definition display_name_of (name : option str) : str :=
  if Py.truthy_opt name then default [] name else Lit.default_name.

(** One iteration of the loop at lines 159-181: [None] is [continue]. *)
Definition decode_row (w : world) (bot_self_id : str) (r : history_row)
  : option (entry * text_entry) :=
  let role := role_of bot_self_id (row_sender_id r) in
  let image_filenames := ImagePattern.findall (row_message_text r) in
  let text_part := history_text_part (row_message_text r) in
  let cl := content_list w (row_message_text r) in
  if negb (nonempty cl) then None
  else
    let text_only_content :=
      Py.strip (Py.repeat_str Lit.image_glyph (length image_filenames)
                ++ Lit.space ++ text_part) in
    if Py.str_eqb role Lit.user then
      let display_name := display_name_of (row_sender_name r) in
      Some (Entry role (Parts (prefix_name display_name cl)),
            TextEntry role
              (display_name ++ Lit.colon_space ++ text_only_content))
    else
      Some (Entry role (Parts cl), TextEntry role text_only_content).

Definition decode_history (w : world) (bot_self_id : str)
    (history_rows : list history_row) : list (entry * text_entry) :=
  omap (decode_row w bot_self_id) history_rows.

(** [c if isinstance(c, list) else [{'type': 'text', 'text': str(c)}]] *)
Definition as_list (c : content) : list part :=
  match c with
  | Parts l => l
  | Str s => [TextPart s]
  end.

(** Lines 189-193: the index of the last entry whose role is user. *)
Fixpoint find_last_user (l : list entry) : option nat :=
  match l with
  | [] => None
  | e :: tl =>
      match find_last_user tl with
      | Some i => Some (S i)
      | None => if Py.str_eqb (role e) Lit.user then Some O else None
      end
  end.

(** Lines 196-215 on the entry at [target_index]. *)
Definition enhance_entry (w : world) (current_message_text : str)
    (e : entry) : entry :=
  let image_filenames := ImagePattern.findall current_message_text in
  let text_part := Py.strip (ImagePattern.sub_empty current_message_text) in
  let e1 :=
    if nonempty image_filenames && negb (Py.truthy text_part)
    then set_content (Parts [TextPart Lit.latest_only_image]) e
    else e in
  if nonempty image_filenames
  then set_content
         (Parts (image_parts w image_filenames ++ as_list (entry_content e1)))
         e1
  else e1.

(** Lines 184-215 on the list object [current_turn_contexts]. *)
Definition enhance_current_turn (w : world) (current_message_text : str)
    (current_turn_contexts : list entry) : list entry :=
  match find_last_user current_turn_contexts with
  | Some target_index =>
      alter (enhance_entry w current_message_text) target_index
            current_turn_contexts
  | None => current_turn_contexts
  end.

(** Lines 225-231: one iteration of the collapsing loop, on
    [merged_contexts]. *)
Definition merge_step (merged_contexts : list entry) (current_msg : entry)
  : list entry :=
  match last merged_contexts with
  | Some last_msg =>
      if Py.str_eqb (role current_msg) (role last_msg) then
        <[pred (length merged_contexts) :=
            set_content
              (Parts (as_list (entry_content last_msg)
                      ++ as_list (entry_content current_msg)))
              last_msg]> merged_contexts
      else merged_contexts ++ [current_msg]
  | None => merged_contexts ++ [current_msg]
  end.

(** Lines 223-231. *)
Definition merge_contexts (final_contexts : list entry) : list entry :=
  match final_contexts with
  | [] => []
  | first :: rest => fold_left merge_step rest [first]
  end.

Definition is_text (p : part) : bool :=
  match p with TextPart _ => true | ImageUrl _ => false end.

(** [item.get('text', '')] *)
Definition text_of (p : part) : str :=
  match p with TextPart t => t | ImageUrl _ => [] end.

(** Lines 234-236 on one entry. *)
Definition flatten_entry (msg : entry) : entry :=
  match entry_content msg with
  | Parts l =>
      if forallb is_text l
      then set_content (Str (Py.strip (Py.join Lit.space (map text_of l)))) msg
      else msg
  | Str _ => msg
  end.

(** Lines 223-236: the list bound to [req.contexts] at line 238. *)
Definition finalize (final_contexts : list entry) : list entry :=
  map flatten_entry (merge_contexts final_contexts).

(** ** The handler: store of list objects, exceptions, [try/except] *)

(** [self.config.get(key, default)] for the two keys the handler reads. *)
Record config := Config {
  cfg_inject_context : option bool;
  cfg_max_history_messages : option Z }.

Record plugin := Plugin {
  plugin_config : config;
  db_cursor : option (list chat_log);
  plugin_world : world }.

Record event := Event {
  unified_msg_origin : str;
  self_id : str }.

Inductive exn :=
| AttributeError (attribute : string)
| UnicodeEncodeError
| OverflowError.

Inductive log_record :=
| LogError (e : exn)
| LogDebug (injected final : nat).

(** What the handler can change: the list objects (by address), the
    [contexts] field of the provider request ([None] is Python's [None]),
    the event's ['text_only_history'] extra, and the log.  The entries of
    a list are kept by value: every dictionary the handler mutates is
    reached through exactly one list. *)
Record pystate := PyState {
  heap : gmap positive (list entry);
  req_contexts : option positive;
  event_extra : option (list text_entry);
  logger : list log_record }.

Inductive outcome (A : Type) :=
| Returned (a : A)
| Raised (e : exn).
Arguments Returned {A} a.
Arguments Raised {A} e.

Definition M (A : Type) : Type := pystate -> outcome A * pystate.

Definition ret {A} (a : A) : M A := fun st => (Returned a, st).

Definition bind {A B} (m : M A) (k : A -> M B) : M B :=
  fun st =>
    match m st with
    | (Returned a, st') => k a st'
    | (Raised e, st') => (Raised e, st')
    end.

Definition raise {A} (e : exn) : M A := fun st => (Raised e, st).

Notation "x <~ m ;; k" := (bind m (fun x => k))
  (at level 100, m at next level, right associativity).
Notation "m ;;; k" := (bind m (fun _ => k))
  (at level 100, right associativity).

(** The list object at an address. *)
Definition list_at (st : pystate) (l : positive) : list entry :=
  default [] (heap st !! l).

(** What [req.contexts] denotes: [None], or the elements of its list. *)
Definition contexts_value (st : pystate) : option (list entry) :=
  list_at st <$> req_contexts st.

Definition read_list (l : positive) : M (list entry) :=
  fun st => (Returned (list_at st l), st).

Definition write_list (l : positive) (v : list entry) : M unit :=
  fun st =>
    (Returned tt,
     PyState (<[l := v]> (heap st)) (req_contexts st) (event_extra st)
             (logger st)).

Definition new_list (v : list entry) : M positive :=
  fun st =>
    let l := fresh (dom (heap st)) in
    (Returned l,
     PyState (<[l := v]> (heap st)) (req_contexts st) (event_extra st)
             (logger st)).

Definition set_req_contexts (l : positive) : M unit :=
  fun st =>
    (Returned tt,
     PyState (heap st) (Some l) (event_extra st) (logger st)).

Definition set_extra (v : list text_entry) : M unit :=
  fun st =>
    (Returned tt,
     PyState (heap st) (req_contexts st) (Some v) (logger st)).

Definition log (r : log_record) (st : pystate) : pystate :=
  PyState (heap st) (req_contexts st) (event_extra st) (logger st ++ [r]).

Definition log_debug (injected final : nat) : M unit :=
  fun st => (Returned tt, log (LogDebug injected final) st).

(** Line 138, [req.contexts or []]: the very list object of the request
    when it is non-empty, a new empty list otherwise. *)
Definition contexts_or_new : M positive :=
  fun st =>
    match req_contexts st with
    | Some l => if nonempty (list_at st l) then ret l st else new_list [] st
    | None => new_list [] st
    end.

(** Line 139, [req.contexts.clear()]. *)
Definition clear_req_contexts : M unit :=
  fun st =>
    match req_contexts st with
    | Some l => write_list l [] st
    | None => raise (AttributeError "clear") st
    end.

(** Lines 142-146.  [execute] binds the session id, then the limit, and
    raises for the first parameter that cannot be bound. *)
Definition fetchall (p : plugin) (ev : event) (limit : Z)
  : M (list history_row) :=
  match db_cursor p with
  | Some table =>
      if negb (Sqlite.encodable (unified_msg_origin ev))
      then raise UnicodeEncodeError
      else if negb (Sqlite.fits_int64 limit) then raise OverflowError
      else
        ret (map project (select_recent table (unified_msg_origin ev) limit))
  | None => raise (AttributeError "execute")
  end.

(** Lines 136-240, the body of the [try]. *)
Definition inject_body (p : plugin) (ev : event) (max_history : Z) : M unit :=
  let bot_self_id := self_id ev in
  current_turn_contexts <~ contexts_or_new ;;
  clear_req_contexts ;;;
  rows <~ fetchall p ev (max_history + 1) ;;
  match rows with
  | [] => set_req_contexts current_turn_contexts
  | current_msg_row :: rest =>
      let history_rows := rev rest in
      let decoded := decode_history (plugin_world p) bot_self_id history_rows in
      let history_contexts := map fst decoded in
      let text_only_contexts := map snd decoded in
      framework <~ read_list current_turn_contexts ;;
      write_list current_turn_contexts
        (enhance_current_turn (plugin_world p)
           (row_message_text current_msg_row) framework) ;;;
      enhanced <~ read_list current_turn_contexts ;;
      let final_contexts := history_contexts ++ enhanced in
      if negb (nonempty final_contexts) then set_extra text_only_contexts
      else
        merged_contexts <~ new_list (finalize final_contexts) ;;
        set_req_contexts merged_contexts ;;;
        set_extra text_only_contexts ;;;
        log_debug (length history_contexts) (length (finalize final_contexts))
  end.

Definition inject_context (p : plugin) : bool :=
  default true (cfg_inject_context (plugin_config p)).

Definition max_history_messages (p : plugin) : Z :=
  default 20%Z (cfg_max_history_messages (plugin_config p)).

(** Lines 130-243. *)
Definition inject_chat_history (p : plugin) (ev : event) (st : pystate)
  : pystate :=
  if negb (inject_context p) then st
  else
    let max_history := max_history_messages p in
    if (max_history <=? 0)%Z then st
    else
      match inject_body p ev max_history st with
      | (Returned _, st') => st'
      | (Raised e, st') => log (LogError e) st'
      end.

(** [log_user_message] after its filters: normalize, then insert. *)
Definition log_message (p : plugin) (sid sender : str) (name : option str)
    (chain : list BaseMessageComponent) (now : Z) : plugin :=
  Plugin (plugin_config p)
    (_save_log_to_db (db_cursor p) sid sender name
       (_process_message_chain (plugin_world p) chain) now)
    (plugin_world p).

(** ** Properties the specification states, as predicates *)

(** No two neighbours of a context list carry the same role. *)
Fixpoint adjacent_roles_differ (l : list entry) : bool :=
  match l with
  | a :: (b :: _) as tl =>
      negb (Py.str_eqb (role a) (role b)) && adjacent_roles_differ tl
  | _ => true
  end.

(** All parts of all entries, in order, a string content counting as the
    one text part that holds it. *)
Definition all_parts (l : list entry) : list part :=
  flat_map (fun e =>
              match entry_content e with
              | Parts ps => ps
              | Str s => [TextPart s]
              end) l.

(** The loop of lines 224-231 seen from the entry it keeps open: [last_msg]
    absorbs the entries of its role, and is closed by the first entry of
    another role. *)
Fixpoint collapse_from (last_msg : entry) (rest : list entry) : list entry :=
  match rest with
  | [] => [last_msg]
  | current_msg :: tl =>
      if Py.str_eqb (role current_msg) (role last_msg)
      then collapse_from
             (set_content
                (Parts (as_list (entry_content last_msg)
                        ++ as_list (entry_content current_msg)))
                last_msg)
             tl
      else last_msg :: collapse_from current_msg tl
  end.

(** The roles of a list with every run of one role counted once. *)
Fixpoint role_runs_from (r : str) (rs : list str) : list str :=
  match rs with
  | [] => [r]
  | r' :: tl =>
      if Py.str_eqb r' r then role_runs_from r tl
      else r :: role_runs_from r' tl
  end.

Definition role_runs (rs : list str) : list str :=
  match rs with
  | [] => []
  | r :: tl => role_runs_from r tl
  end.

(** The prefixing rule as the specification words it: the name goes onto
    the first text part wherever it stands, and a new leading part is made
    only when there is no text part at all. *)
Fixpoint prefix_first_text (name : str) (cl : list part)
  : option (list part) :=
  match cl with
  | [] => None
  | TextPart t :: tl => Some (TextPart (name ++ Lit.colon_space ++ t) :: tl)
  | p :: tl => cons p <$> prefix_first_text name tl
  end.

Definition prefix_name_spec (name : str) (cl : list part) : list part :=
  match prefix_first_text name cl with
  | Some r => r
  | None => TextPart (name ++ Lit.colon_space) :: cl
  end.

(** The row of a session that was inserted last. *)
Definition last_inserted (table : list chat_log) (sid : str)
  : option chat_log :=
  last (filter (fun r => session_id r = sid) table).

(** Timestamps never increase along a query result. *)
Fixpoint newest_first (rows : list chat_log) : bool :=
  match rows with
  | a :: (b :: _) as tl => (timestamp b <=? timestamp a)%Z && newest_first tl
  | _ => true
  end.

(** What the text of the query allows as a result: the first [limit] rows
    of some arrangement of the session's rows by non-increasing timestamp;
    the order among rows of one timestamp is left open. *)
Definition admissible_result (table : list chat_log) (sid : str)
    (limit : Z) (rows : list chat_log) : Prop :=
  exists sorted,
    sorted ≡ₚ filter (fun r => session_id r = sid) table
    /\ newest_first sorted = true
    /\ rows = sql_limit limit sorted.

(** Both parameters of the fetch can be bound. *)
Definition fetch_binds (p : plugin) (ev : event) : bool :=
  Sqlite.encodable (unified_msg_origin ev)
  && Sqlite.fits_int64 (max_history_messages p + 1).

(** The history entries the handler decodes from the fetched window
    (lines 142-181): everything but the newest row, oldest first; nothing
    when the fetch raises. *)
Definition decoded_history (p : plugin) (ev : event) : list entry :=
  match db_cursor p with
  | Some table =>
      if fetch_binds p ev then
        match map project
                (select_recent table (unified_msg_origin ev)
                   (max_history_messages p + 1)) with
        | [] => []
        | _ :: rest =>
            map fst (decode_history (plugin_world p) (self_id ev) (rev rest))
        end
      else []
  | None => []
  end.

(** ** Concrete sessions used by the examples *)

Module Fixture.

Definition sid : str := utf8 "group:42".
Definition bot : str := utf8 "bot".
Definition alice : str := utf8 "u-alice".
Definition ev : event := Event sid bot.

Definition cat_url : str := utf8 "https://example.org/cat.png".
Definition cat_file : str := utf8 "1700000000_ab12cd34.png".
Definition uri_a : str := utf8 "data:image/png;base64,iVBORw0KGgo=".
Definition uri_cat : str := utf8 "data:image/png;base64,R0lGODlh".

Definition path_a : str := utf8 "data/persistent_chat/images/a.png".
Definition path_cat : str := os_path_join Lit.images_dir cat_file.

(** [a.png] and the downloaded cat picture are on disk. *)
Definition disk : world :=
  World
    (fun u => if Py.str_eqb u cat_url then Some cat_file else None)
    (fun path => Py.str_eqb path path_a || Py.str_eqb path path_cat)
    (fun _ => Some Lit.image_png)
    (fun path =>
       if Py.str_eqb path path_a then Some (utf8 "iVBORw0KGgo=")
       else if Py.str_eqb path path_cat then Some (utf8 "R0lGODlh")
       else None).

(** The same downloads, but every image file has been deleted. *)
Definition wiped_disk : world :=
  World (http_save disk) (fun _ => false) (guess_type disk)
        (fun _ => None).

Definition defaults : config := Config None None.

(** The framework hands over one user entry. *)
Definition framework_hi : list entry := [Entry Lit.user (Str (utf8 "hi"))].

Definition st_hi : pystate :=
  PyState {[ 1%positive := framework_hi ]} (Some 1%positive) None [].

(** No rows at all. *)
Definition p_empty : plugin := Plugin defaults (Some []) disk.

(** [_setup_database_and_dirs] failed: there is no cursor. *)
Definition p_no_cursor : plugin := Plugin defaults None disk.

(** The newest row of the session is an image-only message. *)
Definition p_image_only : plugin :=
  Plugin defaults
    (Some [ChatLog sid alice (Some (utf8 "Alice")) (utf8 "[图片:a.png]") 100])
    disk.

(** An earlier row with an image and text, then the current row. *)
Definition row_image_and_text : history_row :=
  HistoryRow alice (Some (utf8 "Alice")) (utf8 "[图片:a.png] hi").

(** An image-only row whose files are gone. *)
Definition row_lost_images : history_row :=
  HistoryRow alice None (utf8 "[图片:gone.png] [图片:lost.jpg]").

(** Two user turns of text and an assistant turn with an image. *)
Definition mixed_turns : list entry :=
  [Entry Lit.user (Parts [TextPart (utf8 "Alice: hi ")]);
   Entry Lit.user (Str (utf8 " there"));
   Entry Lit.assistant
     (Parts [ImageUrl uri_a; TextPart (utf8 "look")])].

(** The same turns, with blanks at the two ends of the user's texts. *)
Definition padded_turns : list entry :=
  [Entry Lit.user (Parts [TextPart (utf8 "  Alice: hi ")]);
   Entry Lit.user (Str (utf8 " there  "));
   Entry Lit.assistant
     (Parts [ImageUrl uri_a; TextPart (utf8 "look")])].

(** Injection switched off by [max_history_messages = 0]. *)
Definition p_off : plugin :=
  Plugin (Config None (Some 0%Z))
    (Some [ChatLog sid alice (Some (utf8 "Alice")) (utf8 "hello") 100])
    disk.

(** A reply and the next message logged within the same second. *)
Definition reply : chat_log :=
  ChatLog sid bot (Some Lit.assistant) (utf8 "earlier reply") 100.
Definition question : chat_log :=
  ChatLog sid alice (Some (utf8 "Alice")) (utf8 "newest question") 100.
Definition same_second : list chat_log := [reply; question].

End Fixture.

(** ** The logging hooks *)

(** The three logging switches of the configuration. *)
Record log_config := LogConfig {
  cfg_log_private_messages : option bool;
  cfg_log_group_messages : option bool;
  cfg_log_self_messages : option bool }.

(** What the hooks read from an [AstrMessageEvent].  [get_result] is the
    chain of [event.get_result()], [None] when there is no result. *)
Record message_event := MessageEvent {
  message_str : str;
  is_private_chat : bool;
  get_sender_id : str;
  get_sender_name : option str;
  get_self_id : str;
  msg_origin : str;
  get_messages : list BaseMessageComponent;
  is_command_response : bool;
  get_result : option (list BaseMessageComponent) }.

(** Lines 111-118. *)
Definition log_user_message (lc : log_config) (p : plugin)
    (e : message_event) (now : Z) : plugin :=
  if Py.startswith (Py.strip (message_str e)) (utf8 "/") then p
  else if (is_private_chat e
           && negb (default false (cfg_log_private_messages lc)))
          || (negb (is_private_chat e)
              && negb (default true (cfg_log_group_messages lc)))
          || Py.str_eqb (get_sender_id e) (get_self_id e)
  then p
  else log_message p (msg_origin e) (get_sender_id e) (get_sender_name e)
         (get_messages e) now.

(** Lines 121-127. *)
Definition log_bot_response (lc : log_config) (p : plugin)
    (e : message_event) (now : Z) : plugin :=
  if is_command_response e then p
  else if negb (default true (cfg_log_self_messages lc)) then p
  else match get_result e with
       | None => p
       | Some chain =>
           if negb (nonempty chain) then p
           else log_message p (msg_origin e) (get_self_id e)
                  (Some Lit.assistant) chain now
       end.

(** ** The name a download is saved under (lines 59-61) *)

Module Download.

(** [s.rfind(c)]: the index of the last [c], if any. *)
Fixpoint rfind (c : N) (s : str) : option nat :=
  match s with
  | [] => None
  | x :: tl =>
      match rfind c tl with
      | Some i => Some (S i)
      | None => if x =? c then Some O else None
      end
  end.

(** [url.split('?')[0]] *)
Fixpoint before_query (url : str) : str :=
  match url with
  | [] => []
  | c :: tl => if c =? 63 then [] else c :: before_query tl
  end.

(** [os.path.splitext(p)] (POSIX): the extension starts at the last dot
    of the last path component, unless only dots precede it there. *)
Definition splitext (p : str) : str * str :=
  let sepIndex :=
    match rfind 47 p with Some i => Z.of_nat i | None => (-1)%Z end in
  let dotIndex :=
    match rfind 46 p with Some i => Z.of_nat i | None => (-1)%Z end in
  if (sepIndex <? dotIndex)%Z then
    let filenameIndex := Z.to_nat (sepIndex + 1) in
    let dot := Z.to_nat dotIndex in
    if existsb (fun c => negb (c =? 46))
         (take (dot - filenameIndex) (drop filenameIndex p))
    then (take dot p, drop dot p)
    else (p, [])
  else (p, []).

Definition png : str := utf8 ".png".

(** Lines 59-60. *)
Definition file_ext (url : str) : str :=
  let ext := snd (splitext (before_query url)) in
  let ext := if Py.truthy ext then ext else png in
  if ((5 <? length ext) || (length ext <? 2))%nat then png else ext.

(** [str(n)] for a non-negative integer. *)
Definition decimal (n : N) : str :=
  Utf8.bytes (NilEmpty.string_of_uint (N.to_uint n)).

(** Line 61, with [now] for [int(time.time())] and [suffix] for
    [uuid.uuid4().hex[:8]]. *)
Definition filename (now : N) (suffix url : str) : str :=
  decimal now ++ utf8 "_" ++ suffix ++ file_ext url.

(** A lower-case hexadecimal digit. *)
Definition is_hex (c : N) : bool :=
  ((48 <=? c) && (c <=? 57)) || ((97 <=? c) && (c <=? 102)).

End Download.

(** ** The command handlers *)

Inductive command_result :=
| plain_result (text : str)
| image_result (url : str).

(** The outcome of [self.text_to_image(text)]: the address of the image,
    or the text of the exception it raised. *)
Inductive rendering :=
| Rendered (url : str)
| RenderFailed (message : str).

(** [f"{e}"] for the [AttributeError] of a missing cursor. *)
Definition missing_attribute (a : string) : str :=
  utf8 "'NoneType' object has no attribute '" ++ Utf8.bytes a ++ utf8 "'".

Module Msg.
Definition count_out_of_range : str := utf8 "查看的条数必须在 1 到 50 之间。".
Definition no_records : str := utf8 "当前会话没有聊天记录。".
Definition view_failed : str := utf8 "查看历史记录失败: ".
Definition clear_failed : str := utf8 "清空失败: ".
Definition unknown_name : str := utf8 "未知".
Definition newline : str := [10].
End Msg.

(** One line of the listing, [f"\n[{sender_name or '未知'}]: {message_text}"]. *)
Definition view_line (r : chat_log) : str :=
  Msg.newline ++ utf8 "["
  ++ (if Py.truthy_opt (sender_name r) then default [] (sender_name r)
      else Msg.unknown_name)
  ++ utf8 "]: " ++ message_text r.

(** Lines 269-271. *)
Definition view_text (rows : list chat_log) : str :=
  utf8 "最近 " ++ Download.decimal (N.of_nat (length rows))
  ++ utf8 " 条聊天记录:" ++ Msg.newline
  ++ Py.repeat_str (utf8 "-") 20
  ++ flat_map view_line rows.

(** Lines 253-276: what the handler yields, for a session id that sqlite3
    can bind (the ids of the rows in the table are such). *)
Definition view_history (p : plugin) (origin : str)
    (text_to_image : str -> rendering) (count : Z) : list command_result :=
  if ((count <=? 0) || (50 <? count))%Z
  then [plain_result Msg.count_out_of_range]
  else
    match db_cursor p with
    | None =>
        [plain_result
           (Msg.view_failed ++ missing_attribute "execute")]
    | Some table =>
        let rows := rev (select_recent_by_id table origin count) in
        if negb (nonempty rows) then [plain_result Msg.no_records]
        else
          match text_to_image (view_text rows) with
          | Rendered image_url => [image_result image_url]
          | RenderFailed message =>
              [plain_result (Msg.view_failed ++ message)]
          end
    end.

(** Lines 283-290: the set of file names the session's rows mention. *)
Definition images_to_delete (rows : list chat_log) : gset (list N) :=
  list_to_set (flat_map (fun r => ImagePattern.findall (message_text r)) rows).

Section Files.

(** [os.remove] as the handler meets it: the world without the file, or
    [None] when the call raises.  Which paths stop existing with the file
    is the operating system's affair. *)
Variable remove : world -> str -> option world.

(** Lines 295-302, one file name. *)
Definition remove_image (acc : world * nat) (filename : str) : world * nat :=
  let filepath := os_path_join Lit.images_dir filename in
  if path_exists (fst acc) filepath then
    match remove (fst acc) filepath with
    | Some w' => (w', S (snd acc))
    | None => acc
    end
  else acc.

(** Lines 295-302: the world left and [deleted_images_count]. *)
Definition remove_images (w : world) (names : list str) : world * nat :=
  fold_left remove_image names (w, O).

(** [f"成功清空了当前会话的 {deleted_count} 条聊天记录，并删除了
    {deleted_images_count} 张关联图片。"] *)
Definition cleared_message (deleted_count deleted_images_count : nat) : str :=
  utf8 "成功清空了当前会话的 "
  ++ Download.decimal (N.of_nat deleted_count)
  ++ utf8 " 条聊天记录，并删除了 "
  ++ Download.decimal (N.of_nat deleted_images_count)
  ++ utf8 " 张关联图片。".

(** Lines 279-306: the plugin afterwards, with the rows of the session
    gone and the image directory as the removals left it, and what is
    yielded, for a session id that sqlite3 can bind. *)
Definition clear_history (p : plugin) (origin : str)
  : plugin * list command_result :=
  match db_cursor p with
  | None =>
      (p, [plain_result (Msg.clear_failed ++ missing_attribute "execute")])
  | Some table =>
      let rows := filter (fun r => session_id r = origin) table in
      let kept := filter (fun r => session_id r <> origin) table in
      let deleted_count := length rows in
      let '(w', deleted_images_count) :=
        remove_images (plugin_world p) (elements (images_to_delete rows)) in
      (Plugin (plugin_config p) (Some kept) w',
       [plain_result (cleared_message deleted_count deleted_images_count)])
  end.

End Files.

(** ** More predicates and sample data *)

(** No [']'] occurs in the text. *)
Definition bracket_free (s : str) : bool :=
  forallb (fun c => negb (c =? ImagePattern.rbracket)) s.

(** [t] is [s] without the whitespace at its two ends. *)
Definition trimmed_of (s t : str) : Prop :=
  (exists pre post,
      s = pre ++ t ++ post
      /\ forallb Py.isspace pre = true /\ forallb Py.isspace post = true)
  /\ match head t with Some c => Py.isspace c = false | None => True end
  /\ match last t with Some c => Py.isspace c = false | None => True end.

(** No ['['] occurs in the text. *)
Definition no_lbracket (s : str) : bool :=
  forallb (fun c => negb (c =? 91)) s.

(** Character [c] does not occur in [s]. *)
Definition lacks (c : N) (s : str) : bool :=
  forallb (fun x => negb (x =? c)) s.

(** A decimal digit. *)
Definition is_digit (c : N) : bool := (48 <=? c) && (c <=? 57).

(** A component for which the loop of lines 89-96 appends nothing. *)
Definition contributes_nothing (comp : BaseMessageComponent) : bool :=
  match comp with
  | Plain text => negb (Py.truthy (Py.strip text))
  | Image url file => negb (Py.truthy_opt (Py.or_else url file))
  | OtherComponent => true
  end.

(** The text-only transcript the handler builds next to the decoded
    history (lines 173-181); nothing when the fetch raises. *)
Definition text_only_history (p : plugin) (ev : event) : list text_entry :=
  match db_cursor p with
  | Some table =>
      if fetch_binds p ev then
        match map project
                (select_recent table (unified_msg_origin ev)
                   (max_history_messages p + 1)) with
        | [] => []
        | _ :: rest =>
            map snd (decode_history (plugin_world p) (self_id ev) (rev rest))
        end
      else []
  | None => []
  end.

(** Every file name found in [text] resolves in [w'] as it does in [w]. *)
Definition resolves_alike (w w' : world) (text : str) : Prop :=
  Forall (fun name =>
            _path_to_base64 w' (os_path_join Lit.images_dir name)
            = _path_to_base64 w (os_path_join Lit.images_dir name))
    (ImagePattern.findall text).

(** The same, for every row of a list. *)
Definition same_images (w w' : world) (rows : list chat_log) : Prop :=
  Forall (fun r => resolves_alike w w' (message_text r)) rows.

(** Timestamps grow strictly along the rows. *)
Fixpoint strictly_increasing (rows : list chat_log) : bool :=
  match rows with
  | a :: (b :: _) as tl =>
      (timestamp a <? timestamp b)%Z && strictly_increasing tl
  | _ => true
  end.

Module Sample.

Definition two_images : str := utf8 "a [图片:x.png] b[图片:y.jpg]".
Definition x_png : str := utf8 "x.png".
Definition greeting : str := utf8 "  good morning ".
Definition local_file : str := utf8 "file:///tmp/pic.png".

Definition log_defaults : log_config := LogConfig None None None.

(** A group message from Alice with a text and a picture. *)
Definition from_alice : message_event :=
  MessageEvent (utf8 "look at this") false Fixture.alice
    (Some (utf8 "Alice")) Fixture.bot Fixture.sid
    [Plain (utf8 "look at this "); Image (Some Fixture.cat_url) None]
    false None.

(** The reply the bot has just sent. *)
Definition bot_reply : message_event :=
  MessageEvent (utf8 "look at this") false Fixture.alice
    (Some (utf8 "Alice")) Fixture.bot Fixture.sid
    [Plain (utf8 "look at this")]
    false (Some [Plain (utf8 " nice cat ")]).

Definition empty_store : plugin := Plugin Fixture.defaults (Some []) Fixture.disk.

(** Two sessions, their rows interleaved, one second apart. *)
Definition other_sid : str := utf8 "private:7".
Definition r1 : chat_log :=
  ChatLog Fixture.sid Fixture.alice (Some (utf8 "Alice")) (utf8 "one") 10.
Definition r2 : chat_log :=
  ChatLog other_sid (utf8 "u-bob") None (utf8 "[图片:b.png] two") 11.
Definition r3 : chat_log :=
  ChatLog Fixture.sid Fixture.bot (Some Lit.assistant) (utf8 "three") 12.
Definition r4 : chat_log :=
  ChatLog Fixture.sid Fixture.alice (Some (utf8 "Alice"))
    (utf8 "[图片:a.png] four") 13.
Definition table : list chat_log := [r1; r2; r3; r4].
Definition store : plugin := Plugin Fixture.defaults (Some table) Fixture.disk.
Definition other_ev : event := Event other_sid Fixture.bot.

Definition jpeg_url : str :=
  utf8 "https://example.org/pics/cat.jpeg?size=large".
Definition plain_url : str :=
  utf8 "https://multimedia.example.com.cn/download?appid=1407".
Definition hex8 : str := utf8 "ab12cd34".

(** An address whose extension holds a [']']; the name line 61 builds for
    it, and a world where the download succeeded and the file is there. *)
Definition bracket_url : str := utf8 "https://example.org/pic.p]g".
Definition bracket_file : str := Download.filename 1700000000 hex8 bracket_url.
Definition bracket_path : str := os_path_join Lit.images_dir bracket_file.
Definition bracket_disk : world :=
  World
    (fun u => if Py.str_eqb u bracket_url then Some bracket_file else None)
    (fun path => Py.str_eqb path bracket_path)
    (fun _ => None)
    (fun path =>
       if Py.str_eqb path bracket_path then Some (utf8 "R0lGODlh") else None).

(** A renderer that always succeeds. *)
Definition render (text : str) : rendering := Rendered (utf8 "file:///tmp/out.png").

(** [os.remove] that always succeeds: the file at [path] stops existing
    and can no longer be read; every other path is as before. *)
Definition unlink (w : world) (path : str) : option world :=
  Some (World (http_save w)
          (fun q => negb (Py.str_eqb q path) && path_exists w q)
          (guess_type w)
          (fun q => if Py.str_eqb q path then None else read_base64 w q)).

(** Two sessions whose rows name the same file. *)
Definition shared_table : list chat_log :=
  [r4;
   ChatLog other_sid (utf8 "u-bob") None (utf8 "[图片:a.png] mine") 14;
   ChatLog other_sid (utf8 "u-bob") None (utf8 "next") 15].
(** [max_history_messages] set to 2^63 - 1: the limit of the query is
    2^63. *)
Definition p_unbounded : plugin :=
  Plugin (Config None (Some 9223372036854775807%Z)) (Some table) Fixture.disk.

Definition shared_store : plugin :=
  Plugin Fixture.defaults (Some shared_table) Fixture.disk.

End Sample.

(** * Theorems *)

(** ** Sanity checks of the string layer *)

Example utf8_marker_open :
  ImagePattern.marker_open = [91; 22270; 29255; 58].
Proof. reflexivity. Qed.

Example findall_two :
  ImagePattern.findall (utf8 "a [图片:x.png] b[图片:y.jpg]]")
  = [utf8 "x.png"; utf8 "y.jpg"].
Proof. vm_compute. reflexivity. Qed.

Example sub_two :
  ImagePattern.sub_empty (utf8 "a [图片:x.png] b[图片:y.jpg]]")
  = utf8 "a  b]".
Proof. vm_compute. reflexivity. Qed.

Example findall_unclosed :
  ImagePattern.findall (utf8 "[图片:] [图片:abc") = [].
Proof. vm_compute. reflexivity. Qed.

Example strip_unicode :
  Py.strip (12288 :: utf8 " hi there  ") = utf8 "hi there".
Proof. vm_compute. reflexivity. Qed.

(** ** Stripping *)

Lemma lstrip_head_not_space (s : str) :
  match Py.lstrip s with
  | [] => True
  | c :: _ => Py.isspace c = false
  end.
Proof.
  induction s as [|c tl IH]; simpl; [exact I|].
  destruct (Py.isspace c) eqn:E; [exact IH | exact E].
Qed.

Lemma rstrip_head (c : N) (tl : str) :
  Py.isspace c = false -> exists r, Py.rstrip (c :: tl) = c :: r.
Proof.
  intros E. simpl. destruct (Py.rstrip tl) as [|d r].
  - rewrite E. by exists [].
  - by exists (d :: r).
Qed.

Lemma rstrip_cons (c : N) (tl : str) :
  Py.rstrip (c :: tl)
  = match Py.rstrip tl with
    | [] => if Py.isspace c then [] else [c]
    | r => c :: r
    end.
Proof. reflexivity. Qed.

Lemma rstrip_idemp (s : str) : Py.rstrip (Py.rstrip s) = Py.rstrip s.
Proof.
  induction s as [|c tl IH]; simpl; [reflexivity|].
  destruct (Py.rstrip tl) as [|d r] eqn:E.
  - destruct (Py.isspace c) eqn:Ec; simpl; [reflexivity|]. by rewrite Ec.
  - rewrite rstrip_cons, IH. reflexivity.
Qed.

Lemma strip_idemp (s : str) : Py.strip (Py.strip s) = Py.strip s.
Proof.
  unfold Py.strip.
  assert (H : Py.lstrip (Py.rstrip (Py.lstrip s)) = Py.rstrip (Py.lstrip s)).
  { pose proof (lstrip_head_not_space s) as Hh.
    destruct (Py.lstrip s) as [|c tl]; [reflexivity|].
    destruct (rstrip_head c tl Hh) as [r ->]. simpl. by rewrite Hh. }
  rewrite H. apply rstrip_idemp.
Qed.

Lemma rstrip_snoc (s : str) (c : N) :
  Py.isspace c = false -> Py.rstrip (s ++ [c]) = s ++ [c].
Proof.
  intros E. induction s as [|d tl IH]; simpl.
  - by rewrite E.
  - rewrite IH. destruct (tl ++ [c]) eqn:Hx; [|reflexivity].
    by destruct tl.
Qed.

Lemma lstrip_split (s : str) :
  exists pre, s = pre ++ Py.lstrip s /\ forallb Py.isspace pre = true.
Proof.
  induction s as [|c tl (pre & Heq & Hpre)]; [by exists []|]. simpl.
  destruct (Py.isspace c) eqn:E.
  - exists (c :: pre). split; [simpl; by rewrite <- Heq|].
    simpl. by rewrite E.
  - by exists [].
Qed.

Lemma rstrip_split (s : str) :
  exists post, s = Py.rstrip s ++ post /\ forallb Py.isspace post = true.
Proof.
  induction s as [|c tl (post & Heq & Hpost)]; [by exists []|]. simpl.
  destruct (Py.rstrip tl) as [|d r] eqn:Hr.
  - simpl in Heq. subst post. destruct (Py.isspace c) eqn:E.
    + exists (c :: tl). split; [reflexivity|]. simpl. by rewrite E.
    + by exists tl.
  - exists post. split; [|exact Hpost].
    change ((c :: d :: r) ++ post) with (c :: (d :: r) ++ post).
    by rewrite <- Heq.
Qed.

Lemma rstrip_last_not_space (s : str) :
  match last (Py.rstrip s) with
  | Some c => Py.isspace c = false
  | None => True
  end.
Proof.
  induction s as [|c tl IH]; [exact I|]. simpl.
  destruct (Py.rstrip tl) as [|d r].
  - destruct (Py.isspace c) eqn:E; [exact I|exact E].
  - exact IH.
Qed.

(** [str.strip] removes the whitespace at the two ends and nothing else. *)
Lemma strip_trims (s : str) : trimmed_of s (Py.strip s).
Proof.
  unfold trimmed_of, Py.strip. split; [|split].
  - destruct (lstrip_split s) as (pre & Hs & Hpre).
    destruct (rstrip_split (Py.lstrip s)) as (post & Hl & Hpost).
    exists pre, post. split; [|by split]. by rewrite <- Hl.
  - pose proof (lstrip_head_not_space s) as Hh.
    destruct (Py.lstrip s) as [|c tl]; [exact I|].
    by destruct (rstrip_head c tl Hh) as [r ->].
  - apply rstrip_last_not_space.
Qed.

Lemma truthy_true (s : str) : Py.truthy s = true <-> s <> [].
Proof. destruct s; simpl; split; congruence. Qed.

(** ** The marker scanner *)

Lemma findall_none_sub (k : nat) (s : str) :
  ImagePattern.findall_from k s = [] ->
  ImagePattern.sub_from k s = drop k s.
Proof.
  revert k. induction s as [|c tl IH]; intros k H.
  - by destruct k.
  - destruct k as [|k]; cbn [ImagePattern.findall_from] in H;
      cbn [ImagePattern.sub_from drop].
    + destruct (ImagePattern.match_here (c :: tl)) as [[g n]|];
        [discriminate|].
      f_equal. rewrite (IH O H). reflexivity.
    + apply IH, H.
Qed.

Lemma findall_skip (a rest : str) :
  ImagePattern.findall_from (length a) (a ++ rest)
  = ImagePattern.findall_from O rest.
Proof.
  induction a as [|c a IH]; simpl; [reflexivity|exact IH].
Qed.

Lemma sub_skip (a rest : str) :
  ImagePattern.sub_from (length a) (a ++ rest)
  = ImagePattern.sub_from O rest.
Proof.
  induction a as [|c a IH]; simpl; [reflexivity|exact IH].
Qed.

Lemma span_name_clean (f rest : str) :
  bracket_free f = true ->
  ImagePattern.span_name (f ++ ImagePattern.rbracket :: rest)
  = (f, ImagePattern.rbracket :: rest).
Proof.
  induction f as [|c f IH]; intros H.
  - reflexivity.
  - simpl in H. apply andb_prop in H as [Hc Hf].
    cbn [app ImagePattern.span_name].
    apply negb_true_iff in Hc. rewrite Hc, (IH Hf). reflexivity.
Qed.

Lemma match_here_marker (f rest : str) :
  f <> [] -> bracket_free f = true ->
  ImagePattern.match_here (marker f ++ rest)
  = Some (f, (length ImagePattern.marker_open + length f + 1)%nat).
Proof.
  intros Hne Hf. unfold ImagePattern.match_here, marker.
  change ImagePattern.marker_open with [91; 22270; 29255; 58].
  cbn [app Py.strip_prefix N.eqb Pos.eqb].
  rewrite <- app_assoc. cbn [app].
  rewrite (span_name_clean f rest Hf).
  destruct f; [congruence|reflexivity].
Qed.

Lemma marker_tail (f rest : str) :
  marker f ++ rest
  = 91 :: ([22270; 29255; 58] ++ f ++ [ImagePattern.rbracket]) ++ rest.
Proof. unfold marker. rewrite <- !app_assoc. reflexivity. Qed.

Lemma marker_tail_length (f : str) :
  pred (length ImagePattern.marker_open + length f + 1)
  = length ([22270; 29255; 58] ++ f ++ [ImagePattern.rbracket]).
Proof. rewrite !length_app. simpl. lia. Qed.

Lemma findall_marker (f rest : str) :
  f <> [] -> bracket_free f = true ->
  ImagePattern.findall_from O (marker f ++ rest)
  = f :: ImagePattern.findall_from O rest.
Proof.
  intros Hne Hf.
  pose proof (match_here_marker f rest Hne Hf) as Hm.
  rewrite marker_tail in *.
  cbn [ImagePattern.findall_from]. rewrite Hm, marker_tail_length.
  f_equal. apply findall_skip.
Qed.

Lemma sub_marker (f rest : str) :
  f <> [] -> bracket_free f = true ->
  ImagePattern.sub_from O (marker f ++ rest)
  = ImagePattern.sub_from O rest.
Proof.
  intros Hne Hf.
  pose proof (match_here_marker f rest Hne Hf) as Hm.
  rewrite marker_tail in *.
  cbn [ImagePattern.sub_from]. rewrite Hm, marker_tail_length.
  apply sub_skip.
Qed.

(** ** Collapsing runs of one role *)

Lemma merge_step_snoc (done : list entry) (last_msg current_msg : entry) :
  merge_step (done ++ [last_msg]) current_msg
  = if Py.str_eqb (role current_msg) (role last_msg)
    then done ++ [set_content
                    (Parts (as_list (entry_content last_msg)
                            ++ as_list (entry_content current_msg)))
                    last_msg]
    else (done ++ [last_msg]) ++ [current_msg].
Proof.
  unfold merge_step. rewrite last_snoc.
  destruct (Py.str_eqb (role current_msg) (role last_msg)); [|reflexivity].
  rewrite length_app. simpl.
  replace (pred (length done + 1)) with (length done + 0)%nat by lia.
  rewrite insert_app_r. reflexivity.
Qed.

Lemma fold_merge_step (rest done : list entry) (last_msg : entry) :
  fold_left merge_step rest (done ++ [last_msg])
  = done ++ collapse_from last_msg rest.
Proof.
  revert done last_msg.
  induction rest as [|c tl IH]; intros done last_msg; simpl; [reflexivity|].
  rewrite merge_step_snoc.
  destruct (Py.str_eqb (role c) (role last_msg)).
  - apply IH.
  - rewrite IH, <- app_assoc. reflexivity.
Qed.

Lemma merge_contexts_collapse (first : entry) (rest : list entry) :
  merge_contexts (first :: rest) = collapse_from first rest.
Proof. apply (fold_merge_step rest [] first). Qed.

Lemma collapse_from_head (rest : list entry) (last_msg : entry) :
  exists c tl, collapse_from last_msg rest = Entry (role last_msg) c :: tl.
Proof.
  revert last_msg. induction rest as [|x tl IH]; intros last_msg; simpl.
  - destruct last_msg. by eexists _, _.
  - destruct (Py.str_eqb (role x) (role last_msg)).
    + apply (IH (set_content _ last_msg)).
    + destruct last_msg. by eexists _, _.
Qed.

Lemma collapse_from_alternates (rest : list entry) (last_msg : entry) :
  adjacent_roles_differ (collapse_from last_msg rest) = true.
Proof.
  revert last_msg. induction rest as [|x tl IH]; intros last_msg; simpl.
  - reflexivity.
  - destruct (Py.str_eqb (role x) (role last_msg)) eqn:E.
    + apply IH.
    + destruct (collapse_from_head tl x) as (c & tl' & Hc).
      pose proof (IH x) as Hx. rewrite Hc in *.
      change (adjacent_roles_differ (last_msg :: Entry (role x) c :: tl'))
        with (negb (Py.str_eqb (role last_msg) (role x))
              && adjacent_roles_differ (Entry (role x) c :: tl')).
      rewrite Hx, andb_true_r.
      unfold Py.str_eqb in *. apply negb_true_iff.
      apply bool_decide_eq_false. apply bool_decide_eq_false in E.
      congruence.
Qed.

Lemma collapse_from_parts (rest : list entry) (last_msg : entry) :
  all_parts (collapse_from last_msg rest)
  = as_list (entry_content last_msg) ++ all_parts rest.
Proof.
  revert last_msg. induction rest as [|x tl IH]; intros last_msg; simpl.
  - reflexivity.
  - destruct (Py.str_eqb (role x) (role last_msg)).
    + rewrite IH. simpl. rewrite <- app_assoc. reflexivity.
    + unfold all_parts in *. simpl. rewrite IH. reflexivity.
Qed.

Lemma flatten_entry_role (e : entry) : role (flatten_entry e) = role e.
Proof.
  unfold flatten_entry. destruct (entry_content e) as [s|l]; [reflexivity|].
  destruct (forallb is_text l); reflexivity.
Qed.

Lemma adjacent_roles_differ_cons (a b : entry) (tl : list entry) :
  adjacent_roles_differ (a :: b :: tl)
  = negb (Py.str_eqb (role a) (role b)) && adjacent_roles_differ (b :: tl).
Proof. reflexivity. Qed.

Lemma map_flatten_alternates (l : list entry) :
  adjacent_roles_differ (map flatten_entry l) = adjacent_roles_differ l.
Proof.
  induction l as [|a tl IH]; [reflexivity|].
  destruct tl as [|b tl]; [reflexivity|].
  change (map flatten_entry (a :: b :: tl))
    with (flatten_entry a :: flatten_entry b :: map flatten_entry tl).
  rewrite !adjacent_roles_differ_cons, !flatten_entry_role.
  f_equal. exact IH.
Qed.

(** ** The handler end to end *)

Lemma heap_insert_empty_twice (h : gmap positive (list entry)) (l l' : positive) :
  default [] (<[l := []]> (<[l' := []]> h) !! l') = [].
Proof.
  destruct (decide (l = l')) as [->|Hne].
  - by rewrite lookup_insert_eq.
  - rewrite lookup_insert_ne by done. by rewrite lookup_insert_eq.
Qed.

Lemma enhance_nil (w : world) (text : str) : enhance_current_turn w text [] = [].
Proof. reflexivity. Qed.

Ltac heap_steps :=
  repeat first
    [ rewrite lookup_insert_eq
    | rewrite heap_insert_empty_twice
    | rewrite enhance_nil
    | rewrite app_nil_r
    | progress simpl ].

Lemma inject_contexts_value (p : plugin) (ev : event) (st : pystate) :
  inject_context p = true ->
  (0 < max_history_messages p)%Z ->
  contexts_value (inject_chat_history p ev st)
  = match req_contexts st with
    | None => None
    | Some _ => Some (finalize (decoded_history p ev))
    end.
Proof.
  intros Hon Hpos. unfold inject_chat_history, decoded_history, fetch_binds.
  rewrite Hon. simpl negb. cbv iota.
  destruct (Z.leb_spec (max_history_messages p) 0) as [Hle|_]; [lia|].
  unfold inject_body, bind, contexts_or_new, clear_req_contexts, fetchall,
    contexts_value.
  destruct (req_contexts st) as [l|] eqn:Hreq.
  - destruct (nonempty (list_at st l)) eqn:Hne;
      unfold ret, raise, new_list, write_list; simpl; rewrite Hreq; simpl;
      (destruct (db_cursor p) as [table|];
       [ destruct (Sqlite.encodable (unified_msg_origin ev)); simpl;
         [ destruct (Sqlite.fits_int64 (max_history_messages p + 1)); simpl;
           [ destruct (map project _) as [|cur rest];
             [ | unfold read_list, write_list, list_at; heap_steps;
                 destruct (map fst _) as [|h hs] eqn:Hh ]
           | ]
         | ]
       | ]);
      unfold new_list, set_req_contexts, set_extra, log_debug, list_at;
      heap_steps; reflexivity.
  - unfold new_list, raise. simpl. rewrite Hreq. reflexivity.
Qed.

Lemma inject_body_raised (p : plugin) (ev : event)
    (st st' : pystate) (e : exn) :
  inject_body p ev (max_history_messages p) st = (Raised e, st') ->
  req_contexts st' = req_contexts st
  /\ event_extra st' = event_extra st
  /\ logger st' = logger st
  /\ ((req_contexts st = None /\ e = AttributeError "clear")
      \/ (is_Some (req_contexts st) /\ decoded_history p ev = []
          /\ ((db_cursor p = None /\ e = AttributeError "execute")
              \/ (Sqlite.encodable (unified_msg_origin ev) = false
                  /\ e = UnicodeEncodeError)
              \/ (Sqlite.fits_int64 (max_history_messages p + 1) = false
                  /\ e = OverflowError)))).
Proof.
  unfold inject_body, bind, contexts_or_new, clear_req_contexts, fetchall,
    decoded_history, fetch_binds.
  destruct (req_contexts st) as [l|] eqn:Hreq.
  - destruct (nonempty (list_at st l)) eqn:Hne;
      unfold ret, raise, new_list, write_list; simpl; rewrite Hreq; simpl;
      (destruct (db_cursor p) as [table|];
       [ destruct (Sqlite.encodable (unified_msg_origin ev)); simpl;
         [ destruct (Sqlite.fits_int64 (max_history_messages p + 1)); simpl;
           [ destruct (map project _) as [|cur rest];
             [ | unfold read_list, write_list, list_at; heap_steps;
                 destruct (map fst _) as [|h hs] eqn:Hh ]
           | ]
         | ]
       | ]);
      unfold new_list, set_req_contexts, set_extra, log_debug, list_at;
      simpl; intros H; inversion H; subst; simpl;
      rewrite ?Hreq; eauto 12.
  - unfold new_list, raise. simpl. rewrite ?Hreq.
    intros H; inversion H; subst; simpl. rewrite ?Hreq. eauto 10.
Qed.

(** With an empty window the request ends up holding an empty list,
    whatever the framework had put there. *)
Lemma empty_window_yields_empty_list (p : plugin) (ev : event)
    (st : pystate) (l : positive) (table : list chat_log) :
  inject_context p = true ->
  (0 < max_history_messages p)%Z ->
  req_contexts st = Some l ->
  db_cursor p = Some table ->
  select_recent table (unified_msg_origin ev) (max_history_messages p + 1)
  = [] ->
  contexts_value (inject_chat_history p ev st) = Some [].
Proof.
  intros Hon Hpos Hreq Hdb Hrows.
  rewrite inject_contexts_value, Hreq by assumption.
  unfold decoded_history. rewrite Hdb, Hrows.
  by destruct (fetch_binds p ev).
Qed.

(** Close a goal with a fact that evaluates to the same normal form. *)
Ltac by_evaluating H := revert H; vm_compute; exact (fun x => x).

(** ** C9 *)

(** C9: when [max_history_messages] is at most 0 the handler returns at
    line 133: the whole state (the request's context field, the list
    objects behind it, the event's extras and the log) is what it was. *)
Theorem C9_injection_disabled (p : plugin) (ev : event) (st : pystate) :
  (max_history_messages p <= 0)%Z ->
  inject_chat_history p ev st = st.
Proof.
  intros Hle. unfold inject_chat_history.
  destruct (negb (inject_context p)); [reflexivity|].
  destruct (Z.leb_spec (max_history_messages p) 0) as [_|Hlt];
    [reflexivity|lia].
Qed.

Lemma C9_injection_disabled_witness :
  (max_history_messages Fixture.p_off <= 0)%Z
  /\ inject_chat_history Fixture.p_off Fixture.ev Fixture.st_hi
     = Fixture.st_hi.
Proof.
  split.
  - vm_compute. discriminate.
  - apply (C9_injection_disabled Fixture.p_off Fixture.ev Fixture.st_hi).
    vm_compute. discriminate.
Defined.

(** ** C1 *)

(** C1: the session has no rows and the framework supplied one user entry.
    Line 138 binds [current_turn_contexts] to the request's own list
    object, line 139 empties that object, and line 148 hands it back: the
    request ends with an empty context list, not with the entry it
    received. *)
Theorem C1_empty_window_drops_framework_context :
  select_recent [] (unified_msg_origin Fixture.ev)
    (max_history_messages Fixture.p_empty + 1) = []
  /\ contexts_value Fixture.st_hi = Some Fixture.framework_hi
  /\ contexts_value
       (inject_chat_history Fixture.p_empty Fixture.ev Fixture.st_hi)
     = Some [].
Proof. vm_compute. repeat split. Qed.

(** ** C2 *)

(** C2 as stated fails when the fetch raises: the cursor is missing, the
    exception is caught, and the request is left with the list that line
    139 emptied, not with the entry the framework supplied. *)
Lemma C2_failed_fetch_leaves_cleared_context :
  (exists st',
      inject_body Fixture.p_no_cursor Fixture.ev
        (max_history_messages Fixture.p_no_cursor) Fixture.st_hi
      = (Raised (AttributeError "execute"), st'))
  /\ contexts_value
       (inject_chat_history Fixture.p_no_cursor Fixture.ev Fixture.st_hi)
     <> contexts_value Fixture.st_hi.
Proof.
  split.
  - eexists. vm_compute. reflexivity.
  - vm_compute. discriminate.
Qed.

(** C2 (amended): an exception raised by the body is caught and logged and
    the handler returns; the event's extras are untouched and the request
    is left as it stood when the exception was raised: still [None] when
    [clear()] failed on a missing context list, and otherwise its own list
    object, emptied by line 139, when the fetch failed. *)
Theorem C2_exception_caught_context_as_at_failure (p : plugin) (ev : event)
    (st st' : pystate) (e : exn) :
  inject_context p = true ->
  (0 < max_history_messages p)%Z ->
  inject_body p ev (max_history_messages p) st = (Raised e, st') ->
  inject_chat_history p ev st = log (LogError e) st'
  /\ logger (inject_chat_history p ev st) = logger st ++ [LogError e]
  /\ event_extra (inject_chat_history p ev st) = event_extra st
  /\ req_contexts (inject_chat_history p ev st) = req_contexts st
  /\ contexts_value (inject_chat_history p ev st)
     = match req_contexts st with
       | None => None
       | Some _ => Some []
       end.
Proof.
  intros Hon Hpos Hbody.
  pose proof (inject_contexts_value p ev st Hon Hpos) as Hval.
  destruct (inject_body_raised _ _ _ _ _ Hbody)
    as (Hreq & Hextra & Hlog & Hcase).
  assert (Hrun : inject_chat_history p ev st = log (LogError e) st').
  { unfold inject_chat_history. rewrite Hon. simpl.
    destruct (Z.leb_spec (max_history_messages p) 0); [lia|].
    by rewrite Hbody. }
  rewrite Hval. rewrite Hrun. simpl. rewrite Hlog, Hextra, Hreq.
  repeat split.
  destruct Hcase as [[Hnone _]|(Hsome & Hdec & _)].
  - by rewrite Hnone.
  - destruct Hsome as [l Hl]. by rewrite Hl, Hdec.
Qed.

Lemma C2_exception_caught_context_as_at_failure_witness :
  inject_context Fixture.p_no_cursor = true
  /\ (0 < max_history_messages Fixture.p_no_cursor)%Z
  /\ logger
       (inject_chat_history Fixture.p_no_cursor Fixture.ev Fixture.st_hi)
     = [LogError (AttributeError "execute")]
  /\ contexts_value
       (inject_chat_history Fixture.p_no_cursor Fixture.ev Fixture.st_hi)
     = Some [].
Proof.
  pose proof
    (C2_exception_caught_context_as_at_failure
       Fixture.p_no_cursor Fixture.ev Fixture.st_hi
       (PyState {[ 1%positive := [] ]} (Some 1%positive) None [])
       (AttributeError "execute") eq_refl eq_refl eq_refl)
    as (_ & Hlog & _ & _ & Hval).
  split; [reflexivity|]. split; [reflexivity|].
  split; [exact Hlog|exact Hval].
Defined.

(** ** C3 *)

Lemma find_last_user_spec (l : list entry) (i : nat) :
  find_last_user l = Some i ->
  (exists e, l !! i = Some e /\ role e = Lit.user)
  /\ (forall j e, (i < j)%nat -> l !! j = Some e -> role e <> Lit.user).
Proof.
  revert i. induction l as [|x tl IH]; intros i H; [discriminate|].
  simpl in H. destruct (find_last_user tl) as [k|] eqn:Hk.
  - injection H as <-. destruct (IH k eq_refl) as [Hex Hlater]. split.
    + exact Hex.
    + intros [|j] e Hj He; [lia|]. apply (Hlater j e); [lia|exact He].
  - destruct (Py.str_eqb (role x) Lit.user) eqn:Hx; [|discriminate].
    injection H as <-. split.
    + exists x. split; [reflexivity|].
      unfold Py.str_eqb in Hx. by apply bool_decide_eq_true in Hx.
    + intros [|j] e Hj He; [lia|]. simpl in He.
      clear IH Hx. revert j He Hj. revert Hk.
      induction tl as [|y tl IH]; intros Hk j He Hj; [discriminate|].
      simpl in Hk. destruct (find_last_user tl) eqn:Ht; [discriminate|].
      destruct (Py.str_eqb (role y) Lit.user) eqn:Hy; [discriminate|].
      destruct j as [|j]; simpl in He.
      * injection He as <-. unfold Py.str_eqb in Hy.
        by apply bool_decide_eq_false in Hy.
      * apply (IH eq_refl j He). lia.
Qed.

(** Lines 184-215 taken on their own do what C3 says to the entry they
    reach, and touch no other entry. *)
Lemma enhance_current_turn_at (w : world) (text : str) (l : list entry)
    (i : nat) (e : entry) :
  find_last_user l = Some i ->
  l !! i = Some e ->
  ImagePattern.findall text <> [] ->
  enhance_current_turn w text l !! i
  = Some (Entry (role e)
            (Parts (image_parts w (ImagePattern.findall text)
                    ++ (if Py.truthy (Py.strip (ImagePattern.sub_empty text))
                        then as_list (entry_content e)
                        else [TextPart Lit.latest_only_image]))))
  /\ (forall j, j <> i -> enhance_current_turn w text l !! j = l !! j).
Proof.
  intros Hi He Hnames. unfold enhance_current_turn. rewrite Hi. split.
  - rewrite list_lookup_alter_eq, He. simpl. f_equal.
    unfold enhance_entry.
    destruct (ImagePattern.findall text) as [|n ns]; [congruence|].
    simpl nonempty. cbv iota. rewrite andb_true_l.
    destruct (Py.truthy (Py.strip (ImagePattern.sub_empty text)));
      reflexivity.
  - intros j Hj. by rewrite list_lookup_alter_ne.
Qed.

(** C3: the newest row of the session is the image-only message
    ["[图片:a.png]"], its file is on disk, and the framework supplied one
    user entry.  Applied to that entry, lines 184-215 would replace its
    content by the image followed by the image-only placeholder; but the
    list they scan is the request's own list, emptied at line 139, so no
    user entry is found and the request ends with an empty context list. *)
Theorem C3_enhancement_never_reaches_framework_entry :
  contexts_value Fixture.st_hi = Some Fixture.framework_hi
  /\ enhance_current_turn Fixture.disk (utf8 "[图片:a.png]")
       Fixture.framework_hi
     = [Entry Lit.user
          (Parts [ImageUrl Fixture.uri_a; TextPart Lit.latest_only_image])]
  /\ contexts_value
       (inject_chat_history Fixture.p_image_only Fixture.ev Fixture.st_hi)
     = Some [].
Proof. vm_compute. repeat split. Qed.

(** Whatever the framework supplied, the list scanned at lines 189-193 is
    empty: the request ends with the decoded history alone. *)
Lemma framework_entries_never_survive (p : plugin) (ev : event)
    (st : pystate) (l : positive) :
  inject_context p = true ->
  (0 < max_history_messages p)%Z ->
  req_contexts st = Some l ->
  contexts_value (inject_chat_history p ev st)
  = Some (finalize (decoded_history p ev)).
Proof.
  intros Hon Hpos Hreq. by rewrite inject_contexts_value, Hreq.
Qed.

(** ** Decoding a history row *)

Lemma image_parts_are_images (w : world) (names : list str) :
  forallb (fun p => negb (is_text p)) (image_parts w names) = true.
Proof.
  unfold image_parts. induction names as [|n ns IH]; [reflexivity|].
  simpl. destruct (Py.truthy_opt _); simpl; exact IH.
Qed.

Lemma prefix_name_behind_images (w : world) (names : list str)
    (name : str) (tail : list part) :
  image_parts w names <> [] ->
  prefix_name name (image_parts w names ++ tail)
  = TextPart (name ++ Lit.colon_space) :: image_parts w names ++ tail.
Proof.
  intros Hne. pose proof (image_parts_are_images w names) as Himg.
  destruct (image_parts w names) as [|[t|u] ps]; [congruence| |reflexivity].
  discriminate Himg.
Qed.

Lemma history_text_part_truthy (text : str) :
  Py.strip text <> [] \/ ImagePattern.findall text <> [] ->
  Py.truthy (history_text_part text) = true.
Proof.
  intros H. unfold history_text_part.
  destruct (ImagePattern.findall text) as [|n ns] eqn:Hnames.
  - simpl. destruct H as [H|H]; [|congruence].
    unfold ImagePattern.sub_empty, ImagePattern.findall in *.
    rewrite (findall_none_sub O text Hnames). simpl.
    by apply truthy_true.
  - simpl. destruct (Py.truthy (Py.strip (ImagePattern.sub_empty text))) eqn:E.
    + exact E.
    + reflexivity.
Qed.

Lemma content_list_shape (w : world) (text : str) :
  Py.strip text <> [] \/ ImagePattern.findall text <> [] ->
  content_list w text
  = image_parts w (ImagePattern.findall text)
    ++ [TextPart (history_text_part text)].
Proof.
  intros H. unfold content_list.
  by rewrite (history_text_part_truthy text H).
Qed.

Lemma path_to_base64_truthy (w : world) (path uri : str) :
  _path_to_base64 w path = Some uri -> Py.truthy uri = true.
Proof.
  unfold _path_to_base64. destruct (path_exists w path); [|discriminate].
  simpl. destruct (read_base64 w path); [|discriminate].
  intros [= <-]. reflexivity.
Qed.

Lemma str_eqb_neq (a b : str) : Py.str_eqb a b = false <-> a <> b.
Proof. unfold Py.str_eqb. apply bool_decide_eq_false. Qed.

(** ** C5 *)

(** C5 as stated fails for a row with a resolved image and text: line
    177 looks at the first part only, which is the image, so a new leading
    part is inserted and the text part behind the image stays bare. *)
Lemma C5_prefix_not_applied_behind_image :
  content_list Fixture.disk (row_message_text Fixture.row_image_and_text)
  = [ImageUrl Fixture.uri_a; TextPart (utf8 "hi")]
  /\ fst <$> decode_row Fixture.disk Fixture.bot Fixture.row_image_and_text
     = Some (Entry Lit.user
               (Parts [TextPart (utf8 "Alice: "); ImageUrl Fixture.uri_a;
                       TextPart (utf8 "hi")]))
  /\ prefix_name_spec (utf8 "Alice")
       (content_list Fixture.disk
          (row_message_text Fixture.row_image_and_text))
     = [ImageUrl Fixture.uri_a; TextPart (utf8 "Alice: hi")]
  /\ fst <$> decode_row Fixture.disk Fixture.bot Fixture.row_image_and_text
     <> Some (Entry Lit.user
                (Parts (prefix_name_spec (utf8 "Alice")
                          (content_list Fixture.disk
                             (row_message_text
                                Fixture.row_image_and_text))))).
Proof. vm_compute. repeat split. discriminate. Qed.

(** C5 (amended): for every decoded user-role history row the prefix
    ["<name>: "] is applied onto the text part when no image of the row
    resolves (the content is then that one text part); when at least one
    image resolves the content starts with an image part, and a new leading
    text part holding just ["<name>: "] is inserted in front of the images,
    the row's text part staying unprefixed behind them. *)
Theorem C5_prefix_on_leading_part_only (w : world) (bot_self_id : str)
    (r : history_row) (e : entry) (t : text_entry) :
  decode_row w bot_self_id r = Some (e, t) ->
  row_sender_id r <> bot_self_id ->
  let name := display_name_of (row_sender_name r) in
  let text_part := history_text_part (row_message_text r) in
  let images := image_parts w (ImagePattern.findall (row_message_text r)) in
  role e = Lit.user
  /\ (images = [] ->
      entry_content e
      = Parts [TextPart (name ++ Lit.colon_space ++ text_part)])
  /\ (images <> [] ->
      entry_content e
      = Parts (TextPart (name ++ Lit.colon_space)
               :: images
               ++ (if Py.truthy text_part then [TextPart text_part]
                   else []))).
Proof.
  intros Hdec Hsender name text_part images.
  unfold decode_row in Hdec.
  destruct (nonempty (content_list w (row_message_text r))) eqn:Hcl;
    [|discriminate].
  simpl in Hdec.
  assert (Hrole : role_of bot_self_id (row_sender_id r) = Lit.user).
  { unfold role_of. by rewrite (proj2 (str_eqb_neq _ _) Hsender). }
  rewrite Hrole in Hdec.
  change (Py.str_eqb Lit.user Lit.user) with true in Hdec.
  injection Hdec as <- _. simpl. split; [reflexivity|].
  unfold content_list in *. fold text_part images in Hcl |- *. split.
  - intros Himg. rewrite Himg in *. simpl in *.
    destruct (Py.truthy text_part); [reflexivity|discriminate].
  - intros Himg. f_equal. subst images.
    apply prefix_name_behind_images, Himg.
Qed.

Lemma C5_prefix_on_leading_part_only_witness :
  decode_row Fixture.disk Fixture.bot Fixture.row_image_and_text
  = Some (Entry Lit.user
            (Parts [TextPart (utf8 "Alice: "); ImageUrl Fixture.uri_a;
                    TextPart (utf8 "hi")]),
          TextEntry Lit.user (utf8 "Alice: [图片] hi"))
  /\ row_sender_id Fixture.row_image_and_text <> Fixture.bot
  /\ image_parts Fixture.disk
       (ImagePattern.findall (row_message_text Fixture.row_image_and_text))
     <> []
  /\ Parts [TextPart (utf8 "Alice: "); ImageUrl Fixture.uri_a;
            TextPart (utf8 "hi")]
     = Parts (TextPart (utf8 "Alice: ")
              :: [ImageUrl Fixture.uri_a] ++ [TextPart (utf8 "hi")]).
Proof.
  assert (H1 : decode_row Fixture.disk Fixture.bot Fixture.row_image_and_text
               = Some (Entry Lit.user
                         (Parts [TextPart (utf8 "Alice: ");
                                 ImageUrl Fixture.uri_a;
                                 TextPart (utf8 "hi")]),
                       TextEntry Lit.user (utf8 "Alice: [图片] hi")))
    by (vm_compute; reflexivity).
  assert (H2 : row_sender_id Fixture.row_image_and_text <> Fixture.bot)
    by (vm_compute; discriminate).
  assert (H3 : image_parts Fixture.disk
                 (ImagePattern.findall
                    (row_message_text Fixture.row_image_and_text)) <> [])
    by (vm_compute; discriminate).
  pose proof
    (proj2 (proj2 (C5_prefix_on_leading_part_only _ _ _ _ _ H1 H2)) H3)
    as H4.
  split; [exact H1|]. split; [exact H2|]. split; [exact H3|].
  by_evaluating H4.
Defined.

(** ** C6 *)

Lemma findall_plain (c : N) (s : str) :
  c <> 91 ->
  ImagePattern.findall_from O (c :: s) = ImagePattern.findall_from O s.
Proof.
  intros Hc. cbn [ImagePattern.findall_from].
  unfold ImagePattern.match_here.
  change ImagePattern.marker_open with [91; 22270; 29255; 58].
  cbn [Py.strip_prefix].
  destruct (N.eqb_spec 91 c) as [E|_]; [congruence|reflexivity].
Qed.

Lemma sub_plain (c : N) (s : str) :
  c <> 91 ->
  ImagePattern.sub_from O (c :: s) = c :: ImagePattern.sub_from O s.
Proof.
  intros Hc. cbn [ImagePattern.sub_from].
  unfold ImagePattern.match_here.
  change ImagePattern.marker_open with [91; 22270; 29255; 58].
  cbn [Py.strip_prefix].
  destruct (N.eqb_spec 91 c) as [E|_]; [congruence|reflexivity].
Qed.

Lemma download_needs_url (w : world) (u f : str) :
  _download_image w u = Some f -> Py.truthy u = true.
Proof.
  unfold _download_image. destruct (Py.truthy u); [reflexivity|].
  discriminate.
Qed.

(** What the normalizer stores for the text ["hello"] followed by one
    image whose download succeeds. *)
Lemma normalize_hello_image (w : world) (u f : str) (file : option str) :
  _download_image w u = Some f -> f <> [] ->
  _process_message_chain w [Plain (utf8 "hello"); Image (Some u) file]
  = utf8 "hello " ++ marker f.
Proof.
  intros Hdl Hf. pose proof (download_needs_url w u f Hdl) as Hu.
  unfold _process_message_chain.
  assert (Himg : fragment w (Image (Some u) file) = Some (marker f)).
  { unfold fragment, Py.or_else. simpl Py.truthy_opt. rewrite Hu, Hdl.
    simpl. rewrite ?Hu, (proj2 (truthy_true f) Hf). reflexivity. }
  cbn [omap list_omap]. rewrite Himg.
  change (fragment w (Plain (utf8 "hello"))) with (Some (utf8 "hello")).
  cbn [Py.join].
  change (utf8 "hello" ++ Lit.space ++ marker f)
    with ((utf8 "hello " ++ ImagePattern.marker_open ++ f)
          ++ [ImagePattern.rbracket]).
  unfold Py.strip.
  change (Py.lstrip ((utf8 "hello " ++ ImagePattern.marker_open ++ f)
                     ++ [ImagePattern.rbracket]))
    with ((utf8 "hello " ++ ImagePattern.marker_open ++ f)
          ++ [ImagePattern.rbracket]).
  rewrite rstrip_snoc by reflexivity.
  unfold marker. rewrite <- !app_assoc. reflexivity.
Qed.

Lemma decode_hello_image (f : str) :
  f <> [] -> bracket_free f = true ->
  ImagePattern.findall (utf8 "hello " ++ marker f) = [f]
  /\ history_text_part (utf8 "hello " ++ marker f) = utf8 "hello".
Proof.
  intros Hne Hf.
  assert (Hfind : ImagePattern.findall (utf8 "hello " ++ marker f) = [f]).
  { unfold ImagePattern.findall.
    change (utf8 "hello " ++ marker f)
      with (104 :: 101 :: 108 :: 108 :: 111 :: 32 :: marker f).
    rewrite !findall_plain by discriminate.
    rewrite <- (app_nil_r (marker f)).
    by rewrite (findall_marker f [] Hne Hf). }
  split; [exact Hfind|].
  unfold history_text_part. rewrite Hfind.
  unfold ImagePattern.sub_empty.
  change (utf8 "hello " ++ marker f)
    with (104 :: 101 :: 108 :: 108 :: 111 :: 32 :: marker f).
  rewrite !sub_plain by discriminate.
  rewrite <- (app_nil_r (marker f)).
  rewrite (sub_marker f [] Hne Hf). reflexivity.
Qed.

(** C6 as stated fails: the extension of the saved name is cut from the
    address (lines 59-61) and may hold a [']'].  The download of
    [https://example.org/pic.p]g] succeeds, the file is on disk and can be
    read, yet the marker ends at the first [']']: the stored row decodes
    to the text ["hello g]"] and no image part. *)
Lemma C6_bracket_in_saved_name_breaks_round_trip :
  let chain := [Plain (utf8 "hello"); Image (Some Sample.bracket_url) None] in
  let stored := _process_message_chain Sample.bracket_disk chain in
  Sample.bracket_file = utf8 "1700000000_ab12cd34.p]g"
  /\ _download_image Sample.bracket_disk Sample.bracket_url
     = Some Sample.bracket_file
  /\ _path_to_base64 Sample.bracket_disk Sample.bracket_path
     = Some Fixture.uri_cat
  /\ stored = utf8 "hello [图片:1700000000_ab12cd34.p]g]"
  /\ ImagePattern.findall stored = [utf8 "1700000000_ab12cd34.p"]
  /\ content_list Sample.bracket_disk stored = [TextPart (utf8 "hello g]")]
  /\ content_list Sample.bracket_disk stored
     <> [ImageUrl Fixture.uri_cat; TextPart (utf8 "hello")]
  /\ decode_row Sample.bracket_disk Fixture.bot
       (HistoryRow Fixture.bot (Some Lit.assistant) stored)
     = Some (Entry Lit.assistant (Parts [TextPart (utf8 "hello g]")]),
             TextEntry Lit.assistant (utf8 "[图片] hello g]")).
Proof. vm_compute. repeat split; discriminate. Qed.

(** C6 (amended): the text ["hello"] and one image whose download succeeds
    under a name without [']'] are stored as ["hello [图片:<filename>]"];
    decoding that row (lines 159-171) yields the image part followed by
    the text part ["hello"] when the saved file still exists and can be
    read, and the text part ["hello"] alone when the file has been
    deleted.  The entry built from it (lines 172-181) has this content for
    a row of the bot; for a user's row the name prefix goes in front of the
    image, or onto ["hello"] when the image is gone. *)
Theorem C6_round_trip_hello_image (w : world) (u f : str)
    (file : option str) :
  _download_image w u = Some f -> f <> [] -> bracket_free f = true ->
  let stored :=
    _process_message_chain w [Plain (utf8 "hello"); Image (Some u) file] in
  let image_path := os_path_join Lit.images_dir f in
  stored = utf8 "hello " ++ marker f
  /\ (forall encoded,
      path_exists w image_path = true ->
      read_base64 w image_path = Some encoded ->
      exists uri,
        _path_to_base64 w image_path = Some uri
        /\ content_list w stored = [ImageUrl uri; TextPart (utf8 "hello")]
        /\ forall bot sender name,
             fst <$> decode_row w bot (HistoryRow sender name stored)
             = Some (if Py.str_eqb sender bot
                     then Entry Lit.assistant
                            (Parts [ImageUrl uri; TextPart (utf8 "hello")])
                     else Entry Lit.user
                            (Parts [TextPart (display_name_of name
                                              ++ utf8 ": ");
                                    ImageUrl uri;
                                    TextPart (utf8 "hello")])))
  /\ (path_exists w image_path = false ->
      content_list w stored = [TextPart (utf8 "hello")]
      /\ forall bot sender name,
           fst <$> decode_row w bot (HistoryRow sender name stored)
           = Some (if Py.str_eqb sender bot
                   then Entry Lit.assistant
                          (Parts [TextPart (utf8 "hello")])
                   else Entry Lit.user
                          (Parts [TextPart (display_name_of name
                                            ++ utf8 ": hello")]))).
Proof.
  intros Hdl Hne Hf stored image_path.
  assert (Hstored : stored = utf8 "hello " ++ marker f)
    by (apply normalize_hello_image; assumption).
  destruct (decode_hello_image f Hne Hf) as [Hfind Htext].
  split; [exact Hstored|].
  assert (Hcl : content_list w stored
                = match _path_to_base64 w image_path with
                  | Some uri =>
                      if Py.truthy uri
                      then [ImageUrl uri; TextPart (utf8 "hello")]
                      else [TextPart (utf8 "hello")]
                  | None => [TextPart (utf8 "hello")]
                  end).
  { rewrite Hstored. unfold content_list. rewrite Hfind, Htext.
    unfold image_parts. cbn [omap list_omap]. fold image_path.
    destruct (_path_to_base64 w image_path) as [uri|]; [|reflexivity].
    cbn [Py.truthy_opt]. by destruct (Py.truthy uri). }
  assert (Hrow : forall bot sender name,
             fst <$> decode_row w bot (HistoryRow sender name stored)
             = match content_list w stored with
               | [] => None
               | cl =>
                   Some (if Py.str_eqb sender bot
                         then Entry Lit.assistant (Parts cl)
                         else Entry Lit.user
                                (Parts (prefix_name (display_name_of name)
                                          cl)))
               end).
  { intros bot sender name. unfold decode_row, role_of.
    cbn [row_message_text row_sender_id row_sender_name].
    destruct (content_list w stored) as [|c cl]; [reflexivity|].
    cbn [nonempty negb]. by destruct (Py.str_eqb sender bot). }
  split.
  - intros encoded Hthere Hread.
    destruct (_path_to_base64 w image_path) as [uri|] eqn:Huri.
    + exists uri. split; [reflexivity|].
      rewrite (path_to_base64_truthy w image_path uri Huri) in Hcl.
      split; [exact Hcl|]. intros bot sender name.
      rewrite Hrow, Hcl. reflexivity.
    + unfold _path_to_base64 in Huri. rewrite Hthere, Hread in Huri.
      discriminate.
  - intros Hgone.
    assert (Hnone : _path_to_base64 w image_path = None)
      by (unfold _path_to_base64; by rewrite Hgone).
    rewrite Hnone in Hcl. split; [exact Hcl|]. intros bot sender name.
    rewrite Hrow, Hcl. reflexivity.
Qed.

Lemma C6_round_trip_hello_image_witness :
  _download_image Fixture.disk Fixture.cat_url = Some Fixture.cat_file
  /\ Fixture.cat_file <> []
  /\ bracket_free Fixture.cat_file = true
  /\ _process_message_chain Fixture.disk
       [Plain (utf8 "hello"); Image (Some Fixture.cat_url) None]
     = utf8 "hello [图片:1700000000_ab12cd34.png]"
  /\ content_list Fixture.disk (utf8 "hello [图片:1700000000_ab12cd34.png]")
     = [ImageUrl Fixture.uri_cat; TextPart (utf8 "hello")]
  /\ content_list Fixture.wiped_disk
       (utf8 "hello [图片:1700000000_ab12cd34.png]")
     = [TextPart (utf8 "hello")].
Proof.
  assert (H1 : _download_image Fixture.disk Fixture.cat_url
               = Some Fixture.cat_file) by (vm_compute; reflexivity).
  assert (H1' : _download_image Fixture.wiped_disk Fixture.cat_url
                = Some Fixture.cat_file) by (vm_compute; reflexivity).
  assert (H2 : Fixture.cat_file <> []) by discriminate.
  assert (H3 : bracket_free Fixture.cat_file = true)
    by (vm_compute; reflexivity).
  assert (H4 : path_exists Fixture.disk
                 (os_path_join Lit.images_dir Fixture.cat_file) = true)
    by (vm_compute; reflexivity).
  assert (H5 : read_base64 Fixture.disk
                 (os_path_join Lit.images_dir Fixture.cat_file)
               = Some (utf8 "R0lGODlh"))
    by (vm_compute; reflexivity).
  assert (H6 : path_exists Fixture.wiped_disk
                 (os_path_join Lit.images_dir Fixture.cat_file) = false)
    by (vm_compute; reflexivity).
  destruct (C6_round_trip_hello_image Fixture.disk Fixture.cat_url
              Fixture.cat_file None H1 H2 H3) as (Hs & Hlive & _).
  destruct (C6_round_trip_hello_image Fixture.wiped_disk Fixture.cat_url
              Fixture.cat_file None H1' H2 H3) as (_ & _ & Hgone).
  destruct (Hlive _ H4 H5) as (uri & Huri & Hl & _).
  assert (Hu : uri = Fixture.uri_cat).
  { revert Huri. vm_compute. by intros [= <-]. }
  rewrite Hu in Hl.
  pose proof (proj1 (Hgone H6)) as Hg.
  split; [exact H1|]. split; [exact H2|]. split; [exact H3|].
  split; [by_evaluating Hs|].
  split; [by_evaluating Hl|by_evaluating Hg].
Defined.

(** ** C10 *)

(** What [log_user_message] and [log_bot_response] insert is never empty
    after trimming: the normalizer output is already trimmed, and an empty
    output is not inserted. *)
Lemma persisted_text_survives_trimming (p : plugin) (sid sender : str)
    (name : option str) (chain : list BaseMessageComponent) (now : Z)
    (table : list chat_log) :
  db_cursor p = Some table ->
  db_cursor (log_message p sid sender name chain now) = Some table
  \/ exists text,
       db_cursor (log_message p sid sender name chain now)
       = Some (table ++ [ChatLog sid sender name text now])
       /\ Py.strip text = text /\ text <> [].
Proof.
  intros Hdb. unfold log_message, _save_log_to_db. simpl. rewrite Hdb.
  destruct (Py.truthy (_process_message_chain (plugin_world p) chain)) eqn:E.
  - simpl. destruct (_ && _); [|by left].
    right. exists (_process_message_chain (plugin_world p) chain).
    split; [reflexivity|]. split.
    + unfold _process_message_chain. apply strip_idemp.
    + by apply truthy_true.
  - left. reflexivity.
Qed.

(** C10: for a fetched row whose text is non-empty after trimming, the
    content list built at lines 165-170 is non-empty, so the [continue] of
    line 171 is not taken and the row is decoded; an image-only row gets
    the placeholder text part behind whatever images resolve, hence the
    placeholder alone when none does. *)
Theorem C10_history_row_never_skipped (w : world) (bot_self_id : str)
    (r : history_row) :
  Py.strip (row_message_text r) <> [] ->
  content_list w (row_message_text r) <> []
  /\ is_Some (decode_row w bot_self_id r)
  /\ (ImagePattern.findall (row_message_text r) <> [] ->
      Py.strip (ImagePattern.sub_empty (row_message_text r)) = [] ->
      content_list w (row_message_text r)
      = image_parts w (ImagePattern.findall (row_message_text r))
        ++ [TextPart Lit.user_sent_image]
      /\ (image_parts w (ImagePattern.findall (row_message_text r)) = [] ->
          content_list w (row_message_text r)
          = [TextPart Lit.user_sent_image])).
Proof.
  intros Htext.
  pose proof (content_list_shape w (row_message_text r) (or_introl Htext))
    as Hshape.
  assert (Hne : content_list w (row_message_text r) <> []).
  { rewrite Hshape. intros H. by apply app_eq_nil in H as [_ H]. }
  split; [exact Hne|]. split.
  - unfold decode_row.
    destruct (content_list w (row_message_text r)) as [|x xs] eqn:Hcl;
      [congruence|].
    simpl. destruct (Py.str_eqb _ Lit.user); eauto.
  - intros Hnames Hbare.
    assert (Hph : history_text_part (row_message_text r)
                  = Lit.user_sent_image).
    { unfold history_text_part. rewrite Hbare.
      destruct (ImagePattern.findall (row_message_text r));
        [congruence|reflexivity]. }
    rewrite Hshape, Hph. split; [reflexivity|].
    by intros ->.
Qed.

Lemma C10_history_row_never_skipped_witness :
  Py.strip (row_message_text Fixture.row_lost_images) <> []
  /\ is_Some (decode_row Fixture.disk Fixture.bot Fixture.row_lost_images)
  /\ content_list Fixture.disk (row_message_text Fixture.row_lost_images)
     = [TextPart Lit.user_sent_image].
Proof.
  assert (H0 : Py.strip (row_message_text Fixture.row_lost_images) <> [])
    by (vm_compute; discriminate).
  destruct (C10_history_row_never_skipped Fixture.disk Fixture.bot
              Fixture.row_lost_images H0)
    as (_ & Hsome & Himg).
  assert (Hn : ImagePattern.findall
                 (row_message_text Fixture.row_lost_images) <> [])
    by (vm_compute; discriminate).
  assert (Hb : Py.strip
                 (ImagePattern.sub_empty
                    (row_message_text Fixture.row_lost_images)) = [])
    by (vm_compute; reflexivity).
  assert (Hi : image_parts Fixture.disk
                 (ImagePattern.findall
                    (row_message_text Fixture.row_lost_images)) = [])
    by (vm_compute; reflexivity).
  split; [exact H0|]. split; [exact Hsome|].
  exact (proj2 (Himg Hn Hb) Hi).
Defined.

(** ** C4 *)

Lemma collapse_from_roles (rest : list entry) (last_msg : entry) :
  map role (collapse_from last_msg rest)
  = role_runs_from (role last_msg) (map role rest).
Proof.
  revert last_msg. induction rest as [|x tl IH]; intros last_msg; simpl.
  - reflexivity.
  - destruct (Py.str_eqb (role x) (role last_msg)).
    + apply (IH (set_content _ last_msg)).
    + simpl. by rewrite IH.
Qed.

Lemma merge_contexts_alternates (final : list entry) :
  adjacent_roles_differ (merge_contexts final) = true.
Proof.
  destruct final as [|first rest]; [reflexivity|].
  rewrite merge_contexts_collapse. apply collapse_from_alternates.
Qed.

(** The list the handler leaves in the request never has two neighbours
    of one role. *)
Lemma written_contexts_alternate (p : plugin) (ev : event) (st : pystate)
    (l : list entry) :
  inject_context p = true ->
  (0 < max_history_messages p)%Z ->
  contexts_value (inject_chat_history p ev st) = Some l ->
  adjacent_roles_differ l = true.
Proof.
  intros Hon Hpos. rewrite inject_contexts_value by assumption.
  destruct (req_contexts st); [|discriminate].
  intros [= <-]. unfold finalize.
  rewrite map_flatten_alternates. apply merge_contexts_alternates.
Qed.

(** C4: in the list produced by the collapsing loop, and in the list
    written to the request after it, no two neighbours have the same
    role; the roles are those of the input with each run counted once, and
    the parts are those of the input in their original order.  Three
    entries with roles user, user, assistant give two entries, the first
    holding the first content followed by the second; a string content
    joins as the one text part that holds it. *)
Theorem C4_collapse_alternates_and_concatenates :
  (forall final,
      adjacent_roles_differ (merge_contexts final) = true
      /\ adjacent_roles_differ (finalize final) = true
      /\ map role (merge_contexts final) = role_runs (map role final)
      /\ all_parts (merge_contexts final) = all_parts final)
  /\ (forall k1 k2 k3,
      merge_contexts
        [Entry Lit.user k1; Entry Lit.user k2; Entry Lit.assistant k3]
      = [Entry Lit.user (Parts (as_list k1 ++ as_list k2));
         Entry Lit.assistant k3])
  /\ (forall c1 c2 c3,
      merge_contexts
        [Entry Lit.user (Parts c1); Entry Lit.user (Parts c2);
         Entry Lit.assistant (Parts c3)]
      = [Entry Lit.user (Parts (c1 ++ c2)); Entry Lit.assistant (Parts c3)])
  /\ (forall s1 c2,
      merge_contexts [Entry Lit.user (Str s1); Entry Lit.user (Parts c2)]
      = [Entry Lit.user (Parts (TextPart s1 :: c2))])
  /\ (forall c1 s2,
      merge_contexts [Entry Lit.user (Parts c1); Entry Lit.user (Str s2)]
      = [Entry Lit.user (Parts (c1 ++ [TextPart s2]))])
  /\ merge_contexts Fixture.mixed_turns
     = [Entry Lit.user
          (Parts [TextPart (utf8 "Alice: hi "); TextPart (utf8 " there")]);
        Entry Lit.assistant
          (Parts [ImageUrl Fixture.uri_a; TextPart (utf8 "look")])].
Proof.
  split; [|split; [|split; [|split; [|split]]]].
  - intros final. split; [apply merge_contexts_alternates|]. split.
    { unfold finalize. rewrite map_flatten_alternates.
      apply merge_contexts_alternates. }
    destruct final as [|first rest]; [by repeat split|].
    rewrite merge_contexts_collapse. split.
    + apply collapse_from_roles.
    + apply collapse_from_parts.
  - intros k1 k2 k3. reflexivity.
  - intros c1 c2 c3. reflexivity.
  - intros s1 c2. reflexivity.
  - intros c1 s2. reflexivity.
  - vm_compute. reflexivity.
Qed.

(** ** C8 *)

Lemma forallb_is_text_texts (texts : list str) :
  forallb is_text (map TextPart texts) = true.
Proof. induction texts as [|t ts IH]; [reflexivity|exact IH]. Qed.

Lemma map_text_of_texts (texts : list str) :
  map text_of (map TextPart texts) = texts.
Proof. induction texts as [|t ts IH]; [reflexivity|]. simpl. by rewrite IH. Qed.

Lemma forallb_is_text_image (ps : list part) (u : str) :
  ImageUrl u ∈ ps -> forallb is_text ps = false.
Proof.
  induction ps as [|p ps IH]; intros Hin.
  - by apply not_elem_of_nil in Hin.
  - apply elem_of_cons in Hin as [<-|Hin]; [reflexivity|].
    simpl. rewrite (IH Hin). apply andb_false_r.
Qed.

(** C8: the entry at each position of the list written to the request is
    the flattened form of the collapsed entry at that position.  An entry
    whose content is a list of text parts only gets the single string made
    of their texts joined by one space and trimmed: what is left of the
    joined text once the whitespace at its two ends is removed.  An entry
    whose list holds an image part is kept as it is, with its list
    content. *)
Theorem C8_flatten_pure_text_entries (final : list entry) (i : nat)
    (e : entry) :
  merge_contexts final !! i = Some e ->
  finalize final !! i = Some (flatten_entry e)
  /\ (forall texts,
      entry_content e = Parts (map TextPart texts) ->
      flatten_entry e
      = Entry (role e) (Str (Py.strip (Py.join Lit.space texts))))
  /\ (forall ps u,
      entry_content e = Parts ps -> ImageUrl u ∈ ps ->
      flatten_entry e = e)
  /\ (forall a b,
      entry_content e = Parts [TextPart a; TextPart b] ->
      exists s,
        flatten_entry e = Entry (role e) (Str s)
        /\ trimmed_of (a ++ 32 :: b) s)
  /\ (forall a,
      entry_content e = Parts [TextPart a] ->
      exists s,
        flatten_entry e = Entry (role e) (Str s) /\ trimmed_of a s).
Proof.
  intros He.
  assert (Htexts : forall texts,
             entry_content e = Parts (map TextPart texts) ->
             flatten_entry e
             = Entry (role e) (Str (Py.strip (Py.join Lit.space texts)))).
  { intros texts Hc. unfold flatten_entry. rewrite Hc.
    by rewrite forallb_is_text_texts, map_text_of_texts. }
  split; [|split; [|split; [|split]]].
  - unfold finalize.
    change (map flatten_entry (merge_contexts final))
      with (flatten_entry <$> merge_contexts final).
    by rewrite list_lookup_fmap, He.
  - exact Htexts.
  - intros ps u Hc Hin. unfold flatten_entry. rewrite Hc.
    by rewrite (forallb_is_text_image ps u Hin).
  - intros a b Hc. eexists. split; [exact (Htexts [a; b] Hc)|].
    apply (strip_trims (a ++ 32 :: b)).
  - intros a Hc. eexists. split; [exact (Htexts [a] Hc)|].
    apply (strip_trims a).
Qed.

Lemma C8_flatten_pure_text_entries_witness :
  merge_contexts Fixture.padded_turns !! 0%nat
  = Some (Entry Lit.user
            (Parts (map TextPart [utf8 "  Alice: hi "; utf8 " there  "])))
  /\ finalize Fixture.padded_turns !! 0%nat
     = Some (Entry Lit.user (Str (utf8 "Alice: hi   there")))
  /\ merge_contexts Fixture.padded_turns !! 1%nat
     = Some (Entry Lit.assistant
               (Parts [ImageUrl Fixture.uri_a; TextPart (utf8 "look")]))
  /\ finalize Fixture.padded_turns !! 1%nat
     = Some (Entry Lit.assistant
               (Parts [ImageUrl Fixture.uri_a; TextPart (utf8 "look")])).
Proof.
  assert (H0 : merge_contexts Fixture.padded_turns !! 0%nat
               = Some (Entry Lit.user
                         (Parts (map TextPart
                                   [utf8 "  Alice: hi "; utf8 " there  "]))))
    by (vm_compute; reflexivity).
  assert (H1 : merge_contexts Fixture.padded_turns !! 1%nat
               = Some (Entry Lit.assistant
                         (Parts [ImageUrl Fixture.uri_a;
                                 TextPart (utf8 "look")])))
    by (vm_compute; reflexivity).
  destruct (C8_flatten_pure_text_entries _ _ _ H0) as (Hf0 & Htext & _).
  destruct (C8_flatten_pure_text_entries _ _ _ H1) as (Hf1 & _ & Himg & _).
  rewrite (Htext _ eq_refl) in Hf0.
  rewrite (Himg _ Fixture.uri_a eq_refl ltac:(apply list_elem_of_here)) in Hf1.
  split; [exact H0|]. split; [by_evaluating Hf0|].
  split; [exact H1|exact Hf1].
Defined.

(** ** C7 *)

Lemma insert_by_timestamp_elem (r x : chat_log) (l : list chat_log) :
  x ∈ insert_by_timestamp r l <-> x = r \/ x ∈ l.
Proof.
  induction l as [|y tl IH]; simpl.
  - rewrite list_elem_of_singleton, elem_of_nil. tauto.
  - destruct (timestamp y <=? timestamp r)%Z.
    + rewrite elem_of_cons. reflexivity.
    + rewrite !elem_of_cons, IH. tauto.
Qed.

Lemma order_by_timestamp_desc_elem (x : chat_log) (l : list chat_log) :
  x ∈ order_by_timestamp_desc l <-> x ∈ l.
Proof.
  induction l as [|r tl IH]; simpl; [reflexivity|].
  rewrite insert_by_timestamp_elem, elem_of_cons, IH. reflexivity.
Qed.

Lemma newest_first_cons (a b : chat_log) (tl : list chat_log) :
  newest_first (a :: b :: tl)
  = (timestamp b <=? timestamp a)%Z && newest_first (b :: tl).
Proof. reflexivity. Qed.

Lemma insert_by_timestamp_sorted (r : chat_log) (l : list chat_log) :
  newest_first l = true -> newest_first (insert_by_timestamp r l) = true.
Proof.
  induction l as [|y tl IH]; intros Hs; [reflexivity|].
  simpl insert_by_timestamp.
  destruct (Z.leb_spec (timestamp y) (timestamp r)) as [Hle|Hgt].
  - rewrite newest_first_cons, Hs, andb_true_r. by apply Z.leb_le.
  - destruct tl as [|z tl].
    + simpl. rewrite andb_true_r. apply Z.leb_le. lia.
    + rewrite newest_first_cons in Hs. apply andb_prop in Hs as [Hzy Hs].
      specialize (IH Hs). simpl insert_by_timestamp in *.
      destruct (timestamp z <=? timestamp r)%Z.
      * rewrite newest_first_cons, IH, andb_true_r. apply Z.leb_le. lia.
      * rewrite newest_first_cons, IH, andb_true_r. exact Hzy.
Qed.

Lemma order_by_timestamp_desc_sorted (l : list chat_log) :
  newest_first (order_by_timestamp_desc l) = true.
Proof.
  induction l as [|r tl IH]; [reflexivity|].
  simpl. by apply insert_by_timestamp_sorted.
Qed.

Lemma newest_first_take (n : nat) (l : list chat_log) :
  newest_first l = true -> newest_first (take n l) = true.
Proof.
  revert n. induction l as [|a tl IH]; intros n Hs; [by destruct n|].
  destruct n as [|n]; [reflexivity|]. destruct tl as [|b tl].
  - by destruct n.
  - rewrite newest_first_cons in Hs. apply andb_prop in Hs as [Hab Hs].
    destruct n as [|n]; [reflexivity|].
    change (take (S (S n)) (a :: b :: tl)) with (a :: take (S n) (b :: tl)).
    specialize (IH (S n) Hs).
    change (take (S n) (b :: tl)) with (b :: take n tl) in *.
    by rewrite newest_first_cons, Hab, IH.
Qed.

Lemma insert_by_timestamp_perm (r : chat_log) (l : list chat_log) :
  insert_by_timestamp r l ≡ₚ r :: l.
Proof.
  induction l as [|y tl IH]; simpl; [reflexivity|].
  destruct (timestamp y <=? timestamp r)%Z; [reflexivity|].
  rewrite IH. apply Permutation_swap.
Qed.

Lemma order_by_timestamp_desc_perm (l : list chat_log) :
  order_by_timestamp_desc l ≡ₚ l.
Proof.
  induction l as [|r tl IH]; simpl; [reflexivity|].
  by rewrite insert_by_timestamp_perm, IH.
Qed.

(** The model of the query is one of the results its text allows. *)
Lemma select_recent_admissible (table : list chat_log) (sid : str)
    (limit : Z) :
  admissible_result table sid limit (select_recent table sid limit).
Proof.
  exists (order_by_timestamp_desc (filter (fun r => session_id r = sid) table)).
  split; [apply order_by_timestamp_desc_perm|].
  split; [apply order_by_timestamp_desc_sorted|reflexivity].
Qed.

(** With two rows of one timestamp the text of the query allows either
    order: nothing in it makes the newest row come first. *)
Lemma same_second_either_order :
  admissible_result Fixture.same_second Fixture.sid (20 + 1)
    [Fixture.reply; Fixture.question]
  /\ admissible_result Fixture.same_second Fixture.sid (20 + 1)
       [Fixture.question; Fixture.reply].
Proof.
  split.
  - exists [Fixture.reply; Fixture.question]. by repeat split.
  - exists [Fixture.question; Fixture.reply]. split; [|by repeat split].
    change (filter _ Fixture.same_second)
      with [Fixture.reply; Fixture.question].
    apply Permutation_swap.
Qed.

(** The part of C7 the query does deliver: at most [limit] rows, all of
    the session, in order of non-increasing timestamp. *)
Lemma select_recent_window (table : list chat_log) (sid : str) (limit : Z) :
  (0 <= limit)%Z ->
  (length (select_recent table sid limit) <= Z.to_nat limit)%nat
  /\ (forall r, r ∈ select_recent table sid limit ->
        r ∈ table /\ session_id r = sid)
  /\ newest_first (select_recent table sid limit) = true.
Proof.
  intros Hlim. unfold select_recent, sql_limit.
  destruct (Z.ltb_spec limit 0) as [Hneg|_]; [lia|]. split; [|split].
  - rewrite length_take. lia.
  - intros r Hr. apply elem_of_take in Hr as (i & Hr & _).
    apply list_elem_of_lookup_2 in Hr.
    apply order_by_timestamp_desc_elem, list_elem_of_filter in Hr.
    tauto.
  - apply newest_first_take, order_by_timestamp_desc_sorted.
Qed.

(** C7: a reply and the next user message are logged within the same
    second.  The query orders by [timestamp] alone, so the two rows come
    back in rowid order: the row split off as the current turn is the
    older reply, not the row inserted last; ordering by [id], as
    [view_history] does, puts the newest row first. *)
Theorem C7_same_second_rows_come_oldest_first :
  select_recent Fixture.same_second Fixture.sid (20 + 1)
  = [Fixture.reply; Fixture.question]
  /\ last_inserted Fixture.same_second Fixture.sid = Some Fixture.question
  /\ head (select_recent Fixture.same_second Fixture.sid (20 + 1))
     = Some Fixture.reply
  /\ head (select_recent_by_id Fixture.same_second Fixture.sid (20 + 1))
     = Some Fixture.question.
Proof. vm_compute. repeat split. Qed.

(** * Further properties of the code *)

(** ** The marker scanner *)

Lemma span_name_free (s : str) :
  bracket_free (fst (ImagePattern.span_name s)) = true.
Proof.
  induction s as [|c tl IH]; [reflexivity|]. simpl.
  destruct (c =? ImagePattern.rbracket) eqn:E; [reflexivity|].
  destruct (ImagePattern.span_name tl) as [g r]. simpl in *.
  by rewrite E, IH.
Qed.

Lemma match_here_name (s g : str) (n : nat) :
  ImagePattern.match_here s = Some (g, n) ->
  g <> [] /\ bracket_free g = true.
Proof.
  unfold ImagePattern.match_here.
  destruct (Py.strip_prefix ImagePattern.marker_open s) as [r|]; [|discriminate].
  pose proof (span_name_free r) as Hfree.
  destruct (ImagePattern.span_name r) as [[|c g'] [|x rest]]; try discriminate.
  intros [= <- _]. split; [discriminate|exact Hfree].
Qed.

Lemma findall_from_names (s : str) (k : nat) (g : str) :
  g ∈ ImagePattern.findall_from k s -> g <> [] /\ bracket_free g = true.
Proof.
  revert k. induction s as [|c tl IH]; intros k Hin.
  - destruct k; by apply elem_of_nil in Hin.
  - destruct k as [|k]; cbn [ImagePattern.findall_from] in Hin.
    + destruct (ImagePattern.match_here (c :: tl)) as [[g' n]|] eqn:Hm.
      * apply elem_of_cons in Hin as [->|Hin].
        -- exact (match_here_name _ _ _ Hm).
        -- exact (IH _ Hin).
      * exact (IH _ Hin).
    + exact (IH _ Hin).
Qed.

(** X1: every file name the pattern extracts from a text is non-empty and
    holds no [']']; so a name that holds one is never found, whatever the
    text. *)
Theorem X1_found_names_are_clean (s g : str) :
  g ∈ ImagePattern.findall s ->
  g <> [] /\ bracket_free g = true.
Proof. apply findall_from_names. Qed.

Lemma X1_found_names_are_clean_witness :
  Sample.x_png ∈ ImagePattern.findall Sample.two_images
  /\ Sample.x_png <> []
  /\ bracket_free Sample.x_png = true.
Proof.
  assert (H : Sample.x_png ∈ ImagePattern.findall Sample.two_images).
  { assert (Hf : ImagePattern.findall Sample.two_images
                 = [Sample.x_png; utf8 "y.jpg"]) by (vm_compute; reflexivity).
    rewrite Hf. apply list_elem_of_here. }
  split; [exact H|]. exact (X1_found_names_are_clean _ _ H).
Defined.

Lemma findall_behind_plain (pre rest : str) :
  no_lbracket pre = true ->
  ImagePattern.findall_from O (pre ++ rest) = ImagePattern.findall_from O rest.
Proof.
  induction pre as [|c pre IH]; intros H; [reflexivity|].
  simpl in H. apply andb_prop in H as [Hc Hp].
  cbn [app]. rewrite findall_plain.
  - exact (IH Hp).
  - apply negb_true_iff, N.eqb_neq in Hc. exact Hc.
Qed.

Lemma sub_behind_plain (pre rest : str) :
  no_lbracket pre = true ->
  ImagePattern.sub_from O (pre ++ rest) = pre ++ ImagePattern.sub_from O rest.
Proof.
  induction pre as [|c pre IH]; intros H; [reflexivity|].
  simpl in H. apply andb_prop in H as [Hc Hp].
  cbn [app]. rewrite sub_plain.
  - by rewrite (IH Hp).
  - apply negb_true_iff, N.eqb_neq in Hc. exact Hc.
Qed.

(** X2: a marker written for a non-empty name without [']'] is found
    again behind any text free of ['['], with the scan going on after it;
    removing the markers takes out exactly the marker. *)
Theorem X2_marker_round_trip (pre f post : str) :
  no_lbracket pre = true -> f <> [] -> bracket_free f = true ->
  ImagePattern.findall (pre ++ marker f ++ post)
  = f :: ImagePattern.findall post
  /\ ImagePattern.sub_empty (pre ++ marker f ++ post)
     = pre ++ ImagePattern.sub_empty post.
Proof.
  intros Hpre Hne Hf. unfold ImagePattern.findall, ImagePattern.sub_empty.
  rewrite (findall_behind_plain _ _ Hpre), (sub_behind_plain _ _ Hpre).
  by rewrite (findall_marker f post Hne Hf), (sub_marker f post Hne Hf).
Qed.

Lemma X2_marker_round_trip_witness :
  no_lbracket (utf8 "see ") = true
  /\ Sample.x_png <> []
  /\ bracket_free Sample.x_png = true
  /\ ImagePattern.findall (utf8 "see [图片:x.png] and [图片:y.jpg]")
     = [Sample.x_png; utf8 "y.jpg"].
Proof.
  assert (H1 : no_lbracket (utf8 "see ") = true) by (vm_compute; reflexivity).
  assert (H2 : Sample.x_png <> []) by discriminate.
  assert (H3 : bracket_free Sample.x_png = true) by (vm_compute; reflexivity).
  pose proof (proj1 (X2_marker_round_trip (utf8 "see ") Sample.x_png
                       (utf8 " and [图片:y.jpg]") H1 H2 H3)) as H.
  split; [exact H1|]. split; [exact H2|]. split; [exact H3|].
  by_evaluating H.
Defined.

(** ** The normalizer *)

Lemma lstrip_keeps (P : N -> bool) (s : str) :
  forallb P s = true -> forallb P (Py.lstrip s) = true.
Proof.
  induction s as [|c tl IH]; intros H; [reflexivity|].
  simpl. destruct (Py.isspace c); [|exact H].
  simpl in H. apply andb_prop in H as [_ H]. exact (IH H).
Qed.

Lemma rstrip_keeps (P : N -> bool) (s : str) :
  forallb P s = true -> forallb P (Py.rstrip s) = true.
Proof.
  induction s as [|c tl IH]; intros H; [reflexivity|].
  simpl in H. apply andb_prop in H as [Hc H]. specialize (IH H).
  rewrite rstrip_cons. destruct (Py.rstrip tl) as [|d r].
  - destruct (Py.isspace c); [reflexivity|]. simpl. by rewrite Hc.
  - simpl in *. by rewrite Hc, IH.
Qed.

Lemma strip_keeps (P : N -> bool) (s : str) :
  forallb P s = true -> forallb P (Py.strip s) = true.
Proof. intros H. apply rstrip_keeps, lstrip_keeps, H. Qed.

Lemma findall_no_lbracket (s : str) :
  no_lbracket s = true -> ImagePattern.findall s = [].
Proof.
  intros H. unfold ImagePattern.findall.
  rewrite <- (app_nil_r s). by rewrite (findall_behind_plain s [] H).
Qed.

(** The content decoded from a text that carries no marker. *)
Lemma content_list_plain (w : world) (s : str) :
  ImagePattern.findall s = [] -> Py.strip s <> [] ->
  content_list w s = [TextPart (Py.strip s)].
Proof.
  intros Hnone Hs. rewrite (content_list_shape w s (or_introl Hs)).
  rewrite Hnone. unfold history_text_part. rewrite Hnone.
  unfold ImagePattern.sub_empty, ImagePattern.findall in *.
  by rewrite (findall_none_sub O s Hnone).
Qed.

(** X3: a text without ['['] survives the round trip through the store
    up to trimming: it is stored trimmed, and the stored row decodes to
    the one text part holding the trimmed text, whatever is on disk. *)
Theorem X3_plain_text_round_trip (w w' : world) (t : str) :
  no_lbracket t = true -> Py.strip t <> [] ->
  _process_message_chain w [Plain t] = Py.strip t
  /\ content_list w' (_process_message_chain w [Plain t])
     = [TextPart (Py.strip t)].
Proof.
  intros Hplain Hne.
  assert (Hstored : _process_message_chain w [Plain t] = Py.strip t).
  { unfold _process_message_chain. cbn [omap list_omap fragment].
    rewrite (proj2 (truthy_true _) Hne). cbn [Py.join]. apply strip_idemp. }
  split; [exact Hstored|]. rewrite Hstored.
  rewrite content_list_plain.
  - by rewrite strip_idemp.
  - apply findall_no_lbracket, strip_keeps, Hplain.
  - by rewrite strip_idemp.
Qed.

Lemma X3_plain_text_round_trip_witness :
  no_lbracket Sample.greeting = true
  /\ Py.strip Sample.greeting <> []
  /\ content_list Fixture.wiped_disk
       (_process_message_chain Fixture.disk [Plain Sample.greeting])
     = [TextPart (utf8 "good morning")].
Proof.
  assert (H1 : no_lbracket Sample.greeting = true) by (vm_compute; reflexivity).
  assert (H2 : Py.strip Sample.greeting <> []) by (vm_compute; discriminate).
  pose proof (proj2 (X3_plain_text_round_trip Fixture.disk Fixture.wiped_disk
                       Sample.greeting H1 H2)) as H.
  split; [exact H1|]. split; [exact H2|]. by_evaluating H.
Defined.

Lemma strip_marker (f : str) : Py.strip (marker f) = marker f.
Proof.
  unfold Py.strip, marker.
  change (Py.lstrip (ImagePattern.marker_open ++ f ++ [ImagePattern.rbracket]))
    with (ImagePattern.marker_open ++ f ++ [ImagePattern.rbracket]).
  rewrite app_assoc. by rewrite rstrip_snoc.
Qed.

Lemma fragment_image (w : world) (u : str) (file : option str) :
  Py.truthy u = true ->
  fragment w (Image (Some u) file)
  = Some (if Py.truthy_opt (_download_image w u)
          then marker (default [] (_download_image w u))
          else Lit.download_failed).
Proof.
  intros Hu. unfold fragment, Py.or_else. simpl Py.truthy_opt.
  rewrite Hu. by rewrite Hu.
Qed.

(** X4: a text component that spells a marker is stored exactly as an
    image saved under that name is: the store cannot tell a typed marker
    from a downloaded picture. *)
Theorem X4_typed_marker_stored_like_image (w : world) (u f : str)
    (file : option str) :
  _download_image w u = Some f -> f <> [] ->
  _process_message_chain w [Plain (marker f)]
  = _process_message_chain w [Image (Some u) file].
Proof.
  intros Hdl Hne. unfold _process_message_chain.
  cbn [omap list_omap].
  rewrite (fragment_image w u file (download_needs_url w u f Hdl)), Hdl.
  simpl Py.truthy_opt. rewrite (proj2 (truthy_true f) Hne).
  cbn [fragment default]. rewrite strip_marker.
  assert (Ht : Py.truthy (marker f) = true) by reflexivity.
  by rewrite Ht.
Qed.

Lemma X4_typed_marker_stored_like_image_witness :
  _download_image Fixture.disk Fixture.cat_url = Some Fixture.cat_file
  /\ Fixture.cat_file <> []
  /\ _process_message_chain Fixture.disk [Plain (marker Fixture.cat_file)]
     = _process_message_chain Fixture.disk
         [Image (Some Fixture.cat_url) None].
Proof.
  assert (H1 : _download_image Fixture.disk Fixture.cat_url
               = Some Fixture.cat_file) by (vm_compute; reflexivity).
  assert (H2 : Fixture.cat_file <> []) by discriminate.
  split; [exact H1|]. split; [exact H2|].
  exact (X4_typed_marker_stored_like_image Fixture.disk Fixture.cat_url
           Fixture.cat_file None H1 H2).
Defined.

(** X5: an image whose address is not an [http://] or [https://] URL is
    never fetched, and an image whose download fails, for that or any other
    reason, is stored as the failure text; that text carries no marker, so
    the row decodes to a text part and no image. *)
Theorem X5_failed_download_stored_as_text (w : world) (u : str)
    (file : option str) :
  Py.truthy u = true ->
  Py.startswith u Lit.http || Py.startswith u Lit.https = false
  \/ http_save w u = None ->
  _download_image w u = None
  /\ _process_message_chain w [Image (Some u) file] = Lit.download_failed
  /\ forall w', content_list w' Lit.download_failed
                = [TextPart Lit.download_failed].
Proof.
  intros Hu Hfail.
  assert (Hdl : _download_image w u = None).
  { unfold _download_image. rewrite Hu. simpl.
    destruct Hfail as [->|Hnone]; [reflexivity|].
    by destruct (Py.startswith u Lit.http || Py.startswith u Lit.https). }
  split; [exact Hdl|]. split.
  - unfold _process_message_chain. cbn [omap list_omap].
    rewrite (fragment_image w u file Hu), Hdl. reflexivity.
  - intros w'. by vm_compute.
Qed.

Lemma X5_failed_download_stored_as_text_witness :
  Py.truthy Sample.local_file = true
  /\ Py.startswith Sample.local_file Lit.http
     || Py.startswith Sample.local_file Lit.https = false
  /\ _process_message_chain Fixture.disk
       [Image (Some Sample.local_file) None] = Lit.download_failed.
Proof.
  assert (H1 : Py.truthy Sample.local_file = true) by reflexivity.
  assert (H2 : Py.startswith Sample.local_file Lit.http
               || Py.startswith Sample.local_file Lit.https = false)
    by (vm_compute; reflexivity).
  split; [exact H1|]. split; [exact H2|].
  exact (proj1 (proj2 (X5_failed_download_stored_as_text Fixture.disk
                         Sample.local_file None H1 (or_introl H2)))).
Defined.

Lemma fragment_nothing (w : world) (c : BaseMessageComponent) :
  contributes_nothing c = true -> fragment w c = None.
Proof.
  destruct c as [t|url file|]; simpl; [| |reflexivity].
  - intros H. apply negb_true_iff in H. by rewrite H.
  - intros H. apply negb_true_iff in H.
    destruct (Py.or_else url file) as [x|]; [|reflexivity].
    simpl in H. by rewrite H.
Qed.

Lemma omap_fragment_nothing (w : world) (chain : list BaseMessageComponent) :
  forallb contributes_nothing chain = true -> omap (fragment w) chain = [].
Proof.
  induction chain as [|c tl IH]; intros H; [reflexivity|].
  simpl in H. apply andb_prop in H as [Hc H].
  cbn [omap list_omap]. by rewrite (fragment_nothing w c Hc), (IH H).
Qed.

(** X6: blank text components, images without an address and components
    of other kinds leave no trace in the stored text, wherever they stand
    in the chain; a chain made of such components only is not stored at
    all. *)
Theorem X6_blank_components_leave_no_trace (w : world)
    (pre post : list BaseMessageComponent) (c : BaseMessageComponent) :
  contributes_nothing c = true ->
  _process_message_chain w (pre ++ c :: post)
  = _process_message_chain w (pre ++ post)
  /\ (forall p sid sender name now,
        forallb contributes_nothing (pre ++ c :: post) = true ->
        plugin_world p = w ->
        log_message p sid sender name (pre ++ c :: post) now = p).
Proof.
  intros Hc. split.
  - unfold _process_message_chain. rewrite !omap_app.
    cbn [omap list_omap]. by rewrite (fragment_nothing w c Hc).
  - intros p sid sender name now Hall <-.
    unfold log_message, _process_message_chain.
    rewrite (omap_fragment_nothing _ _ Hall). simpl. by destruct p.
Qed.

Lemma X6_blank_components_leave_no_trace_witness :
  contributes_nothing (Plain (utf8 "   ")) = true
  /\ _process_message_chain Fixture.disk
       ([Plain (utf8 "hi")] ++ Plain (utf8 "   ") :: [Plain (utf8 "there")])
     = _process_message_chain Fixture.disk
         ([Plain (utf8 "hi")] ++ [Plain (utf8 "there")]).
Proof.
  assert (H1 : contributes_nothing (Plain (utf8 "   ")) = true)
    by (vm_compute; reflexivity).
  split; [exact H1|].
  exact (proj1 (X6_blank_components_leave_no_trace Fixture.disk
                  [Plain (utf8 "hi")] [Plain (utf8 "there")]
                  (Plain (utf8 "   ")) H1)).
Defined.

(** ** The logging hooks *)

Lemma log_message_cursor (p : plugin) (sid sender : str)
    (name : option str) (chain : list BaseMessageComponent) (now : Z)
    (table : list chat_log) :
  db_cursor p = Some table ->
  let text := _process_message_chain (plugin_world p) chain in
  db_cursor (log_message p sid sender name chain now) = Some table
  \/ (Py.truthy text = true
      /\ db_cursor (log_message p sid sender name chain now)
         = Some (table ++ [ChatLog sid sender name text now])).
Proof.
  intros Hdb text. unfold log_message, _save_log_to_db. simpl.
  fold text. rewrite Hdb. destruct (Py.truthy text); [|by left]. simpl.
  destruct (_ && _); [by right|by left].
Qed.

Lemma role_of_self (bot : str) : role_of bot bot = Lit.assistant.
Proof.
  unfold role_of. unfold Py.str_eqb; by rewrite bool_decide_eq_true_2.
Qed.

(** X7: [log_user_message] only ever appends: it leaves the table as it
    is, or adds one row at its end.  The row it adds carries the event's
    session, sender and name, a trimmed non-empty text, and a sender other
    than the bot, so that the injection decodes it with role user; no row
    is added for a message that starts with ['/']. *)
Theorem X7_user_hook_appends_user_rows (lc : log_config) (p : plugin)
    (e : message_event) (now : Z) (table : list chat_log) :
  db_cursor p = Some table ->
  db_cursor (log_user_message lc p e now) = Some table
  \/ exists text,
       db_cursor (log_user_message lc p e now)
       = Some (table
               ++ [ChatLog (msg_origin e) (get_sender_id e)
                     (get_sender_name e) text now])
       /\ Py.strip text = text /\ text <> []
       /\ Py.startswith (Py.strip (message_str e)) (utf8 "/") = false
       /\ role_of (get_self_id e) (get_sender_id e) = Lit.user.
Proof.
  intros Hdb. unfold log_user_message.
  destruct (Py.startswith (Py.strip (message_str e)) (utf8 "/")) eqn:Hcmd;
    [by left|].
  destruct (Py.str_eqb (get_sender_id e) (get_self_id e)) eqn:Hself.
  { rewrite orb_true_r. by left. }
  rewrite orb_false_r.
  match goal with |- context [if ?c then _ else _] => destruct c end;
    [by left|].
  destruct (log_message_cursor p (msg_origin e) (get_sender_id e)
              (get_sender_name e) (get_messages e) now table Hdb)
    as [Hsame|[Ht Hrow]]; [by left|].
  right. eexists. split; [exact Hrow|]. split; [apply strip_idemp|].
  split; [by apply truthy_true|]. split; [reflexivity|].
  unfold role_of. by rewrite Hself.
Qed.

Lemma X7_user_hook_appends_user_rows_witness :
  db_cursor Sample.empty_store = Some []
  /\ db_cursor (log_user_message Sample.log_defaults Sample.empty_store
                  Sample.from_alice 1700000000)
     = Some [ChatLog Fixture.sid Fixture.alice (Some (utf8 "Alice"))
               (utf8 "look at this [图片:1700000000_ab12cd34.png]")
               1700000000].
Proof.
  assert (H1 : db_cursor Sample.empty_store = Some []) by reflexivity.
  split; [exact H1|].
  destruct (X7_user_hook_appends_user_rows Sample.log_defaults
              Sample.empty_store Sample.from_alice 1700000000 [] H1)
    as [H|(text & H & _)].
  - revert H. vm_compute. discriminate.
  - rewrite H. revert H. vm_compute. intros [= <-]. reflexivity.
Defined.

(** X8: [log_bot_response] only ever appends, too, and never for the reply
    to a command; the row it adds is signed with the bot's own id, so the
    injection decodes it with role assistant and without a name prefix:
    its content is the content list of the stored text. *)
Theorem X8_bot_hook_appends_assistant_rows (lc : log_config) (p : plugin)
    (e : message_event) (now : Z) (table : list chat_log) :
  db_cursor p = Some table ->
  db_cursor (log_bot_response lc p e now) = Some table
  \/ exists text,
       db_cursor (log_bot_response lc p e now)
       = Some (table
               ++ [ChatLog (msg_origin e) (get_self_id e)
                     (Some Lit.assistant) text now])
       /\ is_command_response e = false
       /\ forall w,
            fst <$> decode_row w (get_self_id e)
                      (HistoryRow (get_self_id e) (Some Lit.assistant) text)
            = Some (Entry Lit.assistant (Parts (content_list w text))).
Proof.
  intros Hdb. unfold log_bot_response.
  destruct (is_command_response e) eqn:Hcmd; [by left|].
  destruct (negb (default true (cfg_log_self_messages lc))); [by left|].
  destruct (get_result e) as [chain|]; [|by left].
  destruct (negb (nonempty chain)); [by left|].
  destruct (log_message_cursor p (msg_origin e) (get_self_id e)
              (Some Lit.assistant) chain now table Hdb)
    as [Hsame|[Ht Hrow]]; [by left|].
  right. eexists. split; [exact Hrow|]. split; [reflexivity|].
  intros w. unfold decode_row. cbn [row_sender_id row_message_text].
  rewrite role_of_self.
  set (text := _process_message_chain (plugin_world p) chain) in *.
  assert (Hne : Py.strip text <> []).
  { unfold text, _process_message_chain. rewrite strip_idemp.
    by apply truthy_true. }
  rewrite (content_list_shape w text (or_introl Hne)).
  destruct (image_parts w (ImagePattern.findall text)); reflexivity.
Qed.

Lemma X8_bot_hook_appends_assistant_rows_witness :
  db_cursor Sample.empty_store = Some []
  /\ db_cursor (log_bot_response Sample.log_defaults Sample.empty_store
                  Sample.bot_reply 1700000001)
     = Some [ChatLog Fixture.sid Fixture.bot (Some Lit.assistant)
               (utf8 "nice cat") 1700000001].
Proof.
  assert (H1 : db_cursor Sample.empty_store = Some []) by reflexivity.
  split; [exact H1|].
  destruct (X8_bot_hook_appends_assistant_rows Sample.log_defaults
              Sample.empty_store Sample.bot_reply 1700000001 [] H1)
    as [H|(text & H & _)].
  - revert H. vm_compute. discriminate.
  - rewrite H. revert H. vm_compute. intros [= <-]. reflexivity.
Defined.

(** ** The record store and the handler *)

Lemma inject_reads_own_rows (p p' : plugin) (ev : event)
    (st : pystate) (table table' : list chat_log) :
  db_cursor p = Some table ->
  db_cursor p' = Some table' ->
  plugin_config p' = plugin_config p ->
  plugin_world p' = plugin_world p ->
  filter (fun r => session_id r = unified_msg_origin ev) table'
  = filter (fun r => session_id r = unified_msg_origin ev) table ->
  inject_chat_history p' ev st = inject_chat_history p ev st.
Proof.
  destruct p as [cfg db w], p' as [cfg' db' w']. simpl.
  intros -> -> -> -> Hrows.
  unfold inject_chat_history, inject_context, max_history_messages,
    inject_body, fetchall, select_recent. simpl.
  by rewrite Hrows.
Qed.

(** X9: the handler reads the table through the rows of its own session
    only: two stores that agree on those rows, in order, lead to the same
    final state, whatever else they hold. *)
Theorem X9_only_own_session_rows_matter (p p' : plugin) (ev : event)
    (st : pystate) (table table' : list chat_log) :
  db_cursor p = Some table ->
  db_cursor p' = Some table' ->
  plugin_config p' = plugin_config p ->
  plugin_world p' = plugin_world p ->
  filter (fun r => session_id r = unified_msg_origin ev) table'
  = filter (fun r => session_id r = unified_msg_origin ev) table ->
  inject_chat_history p' ev st = inject_chat_history p ev st.
Proof. apply inject_reads_own_rows. Qed.

Lemma X9_only_own_session_rows_matter_witness :
  inject_chat_history
    (Plugin Fixture.defaults (Some [Sample.r1; Sample.r3; Sample.r4])
       Fixture.disk)
    Fixture.ev Fixture.st_hi
  = inject_chat_history Sample.store Fixture.ev Fixture.st_hi.
Proof.
  apply (X9_only_own_session_rows_matter Sample.store
           (Plugin Fixture.defaults (Some [Sample.r1; Sample.r3; Sample.r4])
              Fixture.disk)
           Fixture.ev Fixture.st_hi Sample.table
           [Sample.r1; Sample.r3; Sample.r4]);
    reflexivity.
Defined.

Lemma collapse_from_length (rest : list entry) (last_msg : entry) :
  (length (collapse_from last_msg rest) <= S (length rest))%nat.
Proof.
  revert last_msg. induction rest as [|x tl IH]; intros last_msg; simpl.
  - lia.
  - destruct (Py.str_eqb (role x) (role last_msg)).
    + specialize (IH (set_content
                        (Parts (as_list (entry_content last_msg)
                                ++ as_list (entry_content x))) last_msg)).
      lia.
    + simpl. specialize (IH x). lia.
Qed.

Lemma finalize_length (l : list entry) :
  (length (finalize l) <= length l)%nat.
Proof.
  unfold finalize. rewrite length_map.
  destruct l as [|first rest]; [simpl; lia|].
  rewrite merge_contexts_collapse. apply collapse_from_length.
Qed.

Lemma omap_length_le {A B} (f : A -> option B) (l : list A) :
  (length (omap f l) <= length l)%nat.
Proof.
  induction l as [|x tl IH]; [simpl; lia|].
  cbn [omap list_omap]. destruct (f x); simpl; lia.
Qed.

Lemma decoded_history_length (p : plugin) (ev : event) :
  (0 < max_history_messages p)%Z ->
  (length (decoded_history p ev) <= Z.to_nat (max_history_messages p))%nat.
Proof.
  intros Hpos. unfold decoded_history.
  destruct (db_cursor p) as [table|]; [|simpl; lia].
  destruct (fetch_binds p ev); [|simpl; lia].
  pose proof (proj1 (select_recent_window table (unified_msg_origin ev)
                       (max_history_messages p + 1) ltac:(lia))) as Hlen.
  rewrite <- (length_map project) in Hlen.
  destruct (map project _) as [|cur rest]; [simpl; lia|].
  rewrite length_map. unfold decode_history.
  pose proof (omap_length_le
                (decode_row (plugin_world p) (self_id ev)) (rev rest)) as Ho.
  rewrite length_rev in Ho. simpl in Hlen. lia.
Qed.

(** X10: with injection enabled, the context list the handler leaves in
    the request never has more than [max_history_messages] entries. *)
Theorem X10_injected_context_is_bounded (p : plugin) (ev : event)
    (st : pystate) (l : list entry) :
  inject_context p = true ->
  (0 < max_history_messages p)%Z ->
  contexts_value (inject_chat_history p ev st) = Some l ->
  (length l <= Z.to_nat (max_history_messages p))%nat.
Proof.
  intros Hon Hpos. rewrite inject_contexts_value by assumption.
  destruct (req_contexts st); [|discriminate]. intros [= <-].
  pose proof (finalize_length (decoded_history p ev)).
  pose proof (decoded_history_length p ev Hpos). lia.
Qed.

Lemma X10_injected_context_is_bounded_witness :
  inject_context Sample.store = true
  /\ (0 < max_history_messages Sample.store)%Z
  /\ (length (finalize (decoded_history Sample.store Fixture.ev))
      <= Z.to_nat (max_history_messages Sample.store))%nat.
Proof.
  assert (H1 : inject_context Sample.store = true) by reflexivity.
  assert (H2 : (0 < max_history_messages Sample.store)%Z) by reflexivity.
  split; [exact H1|]. split; [exact H2|].
  apply (X10_injected_context_is_bounded Sample.store Fixture.ev
           Fixture.st_hi _ H1 H2).
  by rewrite (inject_contexts_value _ _ _ H1 H2).
Defined.

Lemma decode_row_roles (w : world) (bot : str) (r : history_row)
    (e : entry) (t : text_entry) :
  decode_row w bot r = Some (e, t) ->
  (role e = Lit.user \/ role e = Lit.assistant) /\ text_role t = role e.
Proof.
  unfold decode_row.
  destruct (negb (nonempty (content_list w (row_message_text r))));
    [discriminate|].
  unfold role_of. destruct (Py.str_eqb (row_sender_id r) bot).
  - change (Py.str_eqb Lit.assistant Lit.user) with false. cbv iota.
    intros [= <- <-]. simpl. auto.
  - change (Py.str_eqb Lit.user Lit.user) with true. cbv iota.
    intros [= <- <-]. simpl. auto.
Qed.

Lemma decode_history_roles (w : world) (bot : str) (rows : list history_row) :
  Forall (fun e => role e = Lit.user \/ role e = Lit.assistant)
    (map fst (decode_history w bot rows))
  /\ map text_role (map snd (decode_history w bot rows))
     = map role (map fst (decode_history w bot rows)).
Proof.
  unfold decode_history. induction rows as [|r tl [IH1 IH2]].
  - split; [constructor|reflexivity].
  - cbn [omap list_omap].
    destruct (decode_row w bot r) as [[e t]|] eqn:Hd; [|by split].
    destruct (decode_row_roles _ _ _ _ _ Hd) as [Hr Ht]. simpl. split.
    + by constructor.
    + by rewrite Ht, IH2.
Qed.

Lemma collapse_from_keeps_roles (P : str -> Prop) (rest : list entry)
    (last_msg : entry) :
  P (role last_msg) -> Forall (fun e => P (role e)) rest ->
  Forall (fun e => P (role e)) (collapse_from last_msg rest).
Proof.
  revert last_msg. induction rest as [|x tl IH]; intros last_msg Hl Hrest.
  - simpl. by constructor.
  - apply Forall_cons in Hrest as [Hx Htl]. simpl.
    destruct (Py.str_eqb (role x) (role last_msg)).
    + by apply IH.
    + constructor; [exact Hl|]. by apply IH.
Qed.

Lemma forallb_is_text_false (ps : list part) :
  forallb is_text ps = false -> exists u, ImageUrl u ∈ ps.
Proof.
  induction ps as [|[t|u] ps IH]; [discriminate| |].
  - simpl. intros H. destruct (IH H) as [u Hu]. exists u. by right.
  - intros _. exists u. by left.
Qed.

Lemma flatten_entry_shape (e : entry) (ps : list part) :
  entry_content (flatten_entry e) = Parts ps -> exists u, ImageUrl u ∈ ps.
Proof.
  unfold flatten_entry. destruct (entry_content e) as [s|l] eqn:Hc.
  - rewrite Hc. discriminate.
  - destruct (forallb is_text l) eqn:Hall; [discriminate|].
    rewrite Hc. intros [= <-]. by apply forallb_is_text_false.
Qed.

(** X11: with injection enabled, every entry the handler leaves in the
    request has role user or assistant, and its content is either a plain
    string or a list that holds at least one image part. *)
Theorem X11_injected_entries_are_well_formed (p : plugin) (ev : event)
    (st : pystate) (l : list entry) (e : entry) :
  inject_context p = true ->
  (0 < max_history_messages p)%Z ->
  contexts_value (inject_chat_history p ev st) = Some l ->
  e ∈ l ->
  (role e = Lit.user \/ role e = Lit.assistant)
  /\ forall ps, entry_content e = Parts ps -> exists u, ImageUrl u ∈ ps.
Proof.
  intros Hon Hpos. rewrite inject_contexts_value by assumption.
  destruct (req_contexts st); [|discriminate]. intros [= <-] Hin.
  unfold finalize in Hin.
  change (map flatten_entry (merge_contexts (decoded_history p ev)))
    with (flatten_entry <$> merge_contexts (decoded_history p ev)) in Hin.
  apply list_elem_of_fmap in Hin as (e0 & -> & Hin). split.
  - rewrite flatten_entry_role.
    assert (Hall : Forall (fun e => role e = Lit.user \/ role e = Lit.assistant)
                     (merge_contexts (decoded_history p ev))).
    { assert (Hdec : Forall (fun e => role e = Lit.user
                                      \/ role e = Lit.assistant)
                       (decoded_history p ev)).
      { unfold decoded_history. destruct (db_cursor p); [|constructor].
        destruct (fetch_binds p ev); [|constructor].
        destruct (map project _); [constructor|].
        apply decode_history_roles. }
      destruct (decoded_history p ev) as [|first rest]; [constructor|].
      rewrite merge_contexts_collapse.
      apply Forall_cons in Hdec as [Hf Hr].
      by apply (collapse_from_keeps_roles
                  (fun r => r = Lit.user \/ r = Lit.assistant)). }
    rewrite Forall_forall in Hall. by apply Hall.
  - intros ps. apply flatten_entry_shape.
Qed.

Lemma X11_injected_entries_are_well_formed_witness :
  inject_context Sample.store = true
  /\ (0 < max_history_messages Sample.store)%Z
  /\ contexts_value
       (inject_chat_history Sample.store Fixture.ev Fixture.st_hi)
     = Some [Entry Lit.user (Str (utf8 "Alice: one"));
             Entry Lit.assistant (Str (utf8 "three"))]
  /\ (role (Entry Lit.user (Str (utf8 "Alice: one"))) = Lit.user
      \/ role (Entry Lit.user (Str (utf8 "Alice: one"))) = Lit.assistant).
Proof.
  assert (H1 : inject_context Sample.store = true) by reflexivity.
  assert (H2 : (0 < max_history_messages Sample.store)%Z) by reflexivity.
  assert (H3 : contexts_value
                 (inject_chat_history Sample.store Fixture.ev Fixture.st_hi)
               = Some [Entry Lit.user (Str (utf8 "Alice: one"));
                       Entry Lit.assistant (Str (utf8 "three"))])
    by (vm_compute; reflexivity).
  split; [exact H1|]. split; [exact H2|]. split; [exact H3|].
  exact (proj1 (X11_injected_entries_are_well_formed Sample.store Fixture.ev
                  Fixture.st_hi _ _ H1 H2 H3 (list_elem_of_here _ _))).
Defined.

Lemma inject_event_extra (p : plugin) (ev : event) (st : pystate) :
  inject_context p = true ->
  (0 < max_history_messages p)%Z ->
  event_extra (inject_chat_history p ev st)
  = match req_contexts st, db_cursor p with
    | Some _, Some table =>
        if fetch_binds p ev
        then match map project
                     (select_recent table (unified_msg_origin ev)
                        (max_history_messages p + 1)) with
             | [] => event_extra st
             | _ :: _ => Some (text_only_history p ev)
             end
        else event_extra st
    | _, _ => event_extra st
    end.
Proof.
  intros Hon Hpos. unfold inject_chat_history, text_only_history, fetch_binds.
  rewrite Hon. simpl negb. cbv iota.
  destruct (Z.leb_spec (max_history_messages p) 0) as [Hle|_]; [lia|].
  unfold inject_body, bind, contexts_or_new, clear_req_contexts, fetchall.
  destruct (req_contexts st) as [l|] eqn:Hreq.
  - destruct (nonempty (list_at st l)) eqn:Hne;
      unfold ret, raise, new_list, write_list; simpl; rewrite Hreq; simpl;
      (destruct (db_cursor p) as [table|];
       [ destruct (Sqlite.encodable (unified_msg_origin ev)); simpl;
         [ destruct (Sqlite.fits_int64 (max_history_messages p + 1)); simpl;
           [ destruct (map project _) as [|cur rest];
             [ | unfold read_list, write_list, list_at; heap_steps;
                 destruct (map fst _) as [|h hs] eqn:Hh ]
           | ]
         | ]
       | ]);
      unfold new_list, set_req_contexts, set_extra, log_debug, list_at;
      heap_steps; reflexivity.
  - unfold new_list, raise. simpl. rewrite Hreq. reflexivity.
Qed.

(** X12: when sqlite3 accepts the two parameters of the query (the
    session id can be encoded and the limit fits a 64-bit integer) and the
    fetch returns rows, the handler publishes a text-only transcript as the
    event's ['text_only_history'] extra; it has one entry per decoded
    history row, with the same roles in the same order as the history
    entries before collapsing.  When the fetch returns no row, or raises
    because a parameter is rejected, the extra is left as it was. *)
Theorem X12_transcript_follows_history (p : plugin) (ev : event)
    (st : pystate) (l : positive) (table : list chat_log) :
  inject_context p = true ->
  (0 < max_history_messages p)%Z ->
  req_contexts st = Some l ->
  db_cursor p = Some table ->
  (fetch_binds p ev = true ->
   select_recent table (unified_msg_origin ev) (max_history_messages p + 1)
   <> [] ->
   event_extra (inject_chat_history p ev st)
   = Some (map snd
             (decode_history (plugin_world p) (self_id ev)
                (rev (tail (map project
                              (select_recent table (unified_msg_origin ev)
                                 (max_history_messages p + 1))))))))
  /\ (fetch_binds p ev = true ->
      select_recent table (unified_msg_origin ev)
        (max_history_messages p + 1) = [] ->
      event_extra (inject_chat_history p ev st) = event_extra st)
  /\ (fetch_binds p ev = false ->
      event_extra (inject_chat_history p ev st) = event_extra st)
  /\ map text_role (text_only_history p ev)
     = map role (decoded_history p ev).
Proof.
  intros Hon Hpos Hreq Hdb.
  rewrite (inject_event_extra p ev st Hon Hpos), Hreq, Hdb.
  split; [|split; [|split]].
  - intros Hbinds Hrows. rewrite Hbinds. unfold text_only_history.
    rewrite Hdb, Hbinds.
    destruct (select_recent _ _ _); [congruence|reflexivity].
  - intros Hbinds Hrows. by rewrite Hbinds, Hrows.
  - by intros ->.
  - unfold text_only_history, decoded_history. rewrite Hdb.
    destruct (fetch_binds p ev); [|reflexivity].
    destruct (map project _); [reflexivity|]. apply decode_history_roles.
Qed.

Lemma X12_transcript_follows_history_witness :
  fetch_binds Sample.store Fixture.ev = true
  /\ event_extra (inject_chat_history Sample.store Fixture.ev Fixture.st_hi)
     = Some [TextEntry Lit.user (utf8 "Alice: one");
             TextEntry Lit.assistant (utf8 "three")].
Proof.
  assert (Hbinds : fetch_binds Sample.store Fixture.ev = true)
    by (vm_compute; reflexivity).
  assert (Hrows : select_recent Sample.table (unified_msg_origin Fixture.ev)
                    (max_history_messages Sample.store + 1) <> [])
    by (vm_compute; discriminate).
  split; [exact Hbinds|].
  pose proof (proj1 (X12_transcript_follows_history Sample.store Fixture.ev
                       Fixture.st_hi 1%positive Sample.table
                       eq_refl eq_refl eq_refl eq_refl) Hbinds Hrows) as H.
  by_evaluating H.
Defined.

(** X13: with injection enabled and a context list in the request, the
    list the handler leaves there is the collapsed and flattened decoding
    of the fetched rows other than the newest, oldest first; it is the same
    for every content of the list the framework supplied.  When sqlite3
    rejects a parameter of the query (a session id it cannot encode, a
    limit beyond 64 bits) or there is no cursor, nothing is fetched and the
    list is left empty. *)
Theorem X13_result_is_decoded_history (p : plugin) (ev : event)
    (st st' : pystate) (l l' : positive) :
  inject_context p = true ->
  (0 < max_history_messages p)%Z ->
  req_contexts st = Some l ->
  req_contexts st' = Some l' ->
  contexts_value (inject_chat_history p ev st)
  = Some (finalize (decoded_history p ev))
  /\ contexts_value (inject_chat_history p ev st')
     = contexts_value (inject_chat_history p ev st)
  /\ (forall table,
        db_cursor p = Some table ->
        Sqlite.encodable (unified_msg_origin ev) = true ->
        (max_history_messages p + 1 <= 9223372036854775807)%Z ->
        contexts_value (inject_chat_history p ev st)
        = Some (finalize
                  (map fst
                     (decode_history (plugin_world p) (self_id ev)
                        (rev (tail (map project
                                      (select_recent table
                                         (unified_msg_origin ev)
                                         (max_history_messages p + 1)))))))))
  /\ (db_cursor p = None
      \/ Sqlite.encodable (unified_msg_origin ev) = false
      \/ (9223372036854775807 < max_history_messages p + 1)%Z ->
      contexts_value (inject_chat_history p ev st) = Some []).
Proof.
  intros Hon Hpos Hreq Hreq'.
  rewrite !inject_contexts_value by assumption.
  rewrite Hreq, Hreq'. simpl.
  split; [reflexivity|]. split; [reflexivity|]. split.
  - intros table Hdb Henc Hlim. unfold decoded_history, fetch_binds.
    rewrite Hdb, Henc. unfold Sqlite.fits_int64.
    destruct (Z.leb_spec (-9223372036854775808) (max_history_messages p + 1));
      [|lia].
    destruct (Z.leb_spec (max_history_messages p + 1) 9223372036854775807);
      [|lia].
    simpl. destruct (map project _); reflexivity.
  - unfold decoded_history, fetch_binds, Sqlite.fits_int64.
    intros [Hdb|[Henc|Hlim]].
    + by rewrite Hdb.
    + rewrite Henc. by destruct (db_cursor p).
    + destruct (Z.leb_spec (max_history_messages p + 1) 9223372036854775807);
        [lia|].
      rewrite !andb_false_r. by destruct (db_cursor p).
Qed.

Lemma X13_result_is_decoded_history_witness :
  contexts_value (inject_chat_history Sample.store Fixture.ev Fixture.st_hi)
  = Some [Entry Lit.user (Str (utf8 "Alice: one"));
          Entry Lit.assistant (Str (utf8 "three"))].
Proof.
  pose proof (proj1 (X13_result_is_decoded_history Sample.store Fixture.ev
                       Fixture.st_hi Fixture.st_hi 1%positive 1%positive
                       eq_refl eq_refl eq_refl eq_refl)) as H.
  by_evaluating H.
Defined.

(** A limit that does not fit 64 bits: the query raises [OverflowError],
    which the handler logs; the request is left with an empty list and no
    transcript is published. *)
Example limit_beyond_int64_leaves_nothing :
  let st := inject_chat_history Sample.p_unbounded Fixture.ev Fixture.st_hi in
  contexts_value st = Some []
  /\ event_extra st = None
  /\ logger st = [LogError OverflowError].
Proof. vm_compute. by split. Qed.

Lemma str_eqb_sym (a b : str) : Py.str_eqb a b = Py.str_eqb b a.
Proof.
  unfold Py.str_eqb. destruct (decide (a = b)) as [->|Hne].
  - reflexivity.
  - rewrite !bool_decide_eq_false_2; [reflexivity|congruence|exact Hne].
Qed.

Lemma collapse_from_alternating (rest : list entry) (x : entry) :
  adjacent_roles_differ (x :: rest) = true -> collapse_from x rest = x :: rest.
Proof.
  revert x. induction rest as [|y tl IH]; intros x H; [reflexivity|].
  rewrite adjacent_roles_differ_cons in H. apply andb_prop in H as [Hxy H].
  apply negb_true_iff in Hxy. simpl.
  rewrite str_eqb_sym, Hxy. by rewrite (IH y H).
Qed.

Lemma merge_contexts_alternating (l : list entry) :
  adjacent_roles_differ l = true -> merge_contexts l = l.
Proof.
  destruct l as [|x rest]; [reflexivity|]. intros H.
  rewrite merge_contexts_collapse. by apply collapse_from_alternating.
Qed.

Lemma flatten_entry_idemp (e : entry) :
  flatten_entry (flatten_entry e) = flatten_entry e.
Proof.
  destruct e as [r [s|l]]; unfold flatten_entry; simpl; [reflexivity|].
  destruct (forallb is_text l) eqn:Hall; simpl; [reflexivity|].
  by rewrite Hall.
Qed.

(** X14: collapsing and flattening are stable: applied to their own
    result they change nothing, and a list whose neighbours already differ
    in role is collapsed to itself. *)
Theorem X14_post_processing_is_idempotent (l : list entry) :
  finalize (finalize l) = finalize l
  /\ merge_contexts (merge_contexts l) = merge_contexts l.
Proof.
  split.
  - unfold finalize at 1.
    rewrite (merge_contexts_alternating (finalize l)).
    + unfold finalize. rewrite map_map. apply map_ext.
      intros e. apply flatten_entry_idemp.
    + unfold finalize. rewrite map_flatten_alternates.
      apply merge_contexts_alternates.
  - apply merge_contexts_alternating, merge_contexts_alternates.
Qed.

(** ** Fetching when no two rows share a second *)

Lemma strictly_increasing_cons (a b : chat_log) (tl : list chat_log) :
  strictly_increasing (a :: b :: tl)
  = (timestamp a <? timestamp b)%Z && strictly_increasing (b :: tl).
Proof. reflexivity. Qed.

Lemma strictly_increasing_head (x : chat_log) (tl : list chat_log) :
  strictly_increasing (x :: tl) = true ->
  Forall (fun y => (timestamp x < timestamp y)%Z) tl
  /\ strictly_increasing tl = true.
Proof.
  revert x. induction tl as [|y tl IH]; intros x H; [by split|].
  rewrite strictly_increasing_cons in H. apply andb_prop in H as [Hxy H].
  apply Z.ltb_lt in Hxy. destruct (IH y H) as [Hall _].
  split; [|exact H]. constructor; [exact Hxy|].
  eapply Forall_impl; [exact Hall|]. simpl. intros z Hz. lia.
Qed.

Lemma insert_by_timestamp_oldest (r : chat_log) (l : list chat_log) :
  Forall (fun y => (timestamp r < timestamp y)%Z) l ->
  insert_by_timestamp r l = l ++ [r].
Proof.
  induction l as [|y tl IH]; intros H; [reflexivity|].
  apply Forall_cons in H as [Hy H]. simpl.
  destruct (Z.leb_spec (timestamp y) (timestamp r)); [lia|].
  by rewrite (IH H).
Qed.

Lemma order_by_timestamp_desc_increasing (l : list chat_log) :
  strictly_increasing l = true -> order_by_timestamp_desc l = rev l.
Proof.
  induction l as [|x tl IH]; intros H; [reflexivity|].
  destruct (strictly_increasing_head x tl H) as [Hall Htl].
  simpl. rewrite (IH Htl). apply insert_by_timestamp_oldest.
  apply Forall_forall. intros y Hy. rewrite Forall_forall in Hall.
  apply Hall. apply list_elem_of_In. apply list_elem_of_In in Hy.
  by apply in_rev.
Qed.

Lemma head_take_rev {A} (n : nat) (l : list A) :
  (0 < n)%nat -> head (take n (rev l)) = last l.
Proof.
  intros Hn. destruct n as [|n]; [lia|].
  destruct l as [|x tl] using rev_ind; [reflexivity|].
  rewrite rev_unit, last_snoc. reflexivity.
Qed.

(** X15: when the rows of a session carry strictly increasing timestamps
    (no two of them were logged within one second), ordering by timestamp
    gives the same result as ordering by id, and with a positive limit the
    row split off as the current turn is the row inserted last. *)
Theorem X15_distinct_seconds_fetch_in_insertion_order
    (table : list chat_log) (sid : str) (limit : Z) :
  strictly_increasing (filter (fun r => session_id r = sid) table) = true ->
  select_recent table sid limit = select_recent_by_id table sid limit
  /\ ((0 < limit)%Z ->
      head (select_recent table sid limit) = last_inserted table sid).
Proof.
  intros Hinc.
  assert (Heq : select_recent table sid limit
                = select_recent_by_id table sid limit).
  { unfold select_recent, select_recent_by_id.
    by rewrite (order_by_timestamp_desc_increasing _ Hinc). }
  split; [exact Heq|]. intros Hpos. rewrite Heq.
  unfold select_recent_by_id, sql_limit, last_inserted.
  destruct (Z.ltb_spec limit 0); [lia|].
  apply head_take_rev. lia.
Qed.

Lemma X15_distinct_seconds_fetch_in_insertion_order_witness :
  strictly_increasing
    (filter (fun r => session_id r = Fixture.sid) Sample.table) = true
  /\ select_recent Sample.table Fixture.sid 21
     = [Sample.r4; Sample.r3; Sample.r1].
Proof.
  assert (H1 : strictly_increasing
                 (filter (fun r => session_id r = Fixture.sid) Sample.table)
               = true) by (vm_compute; reflexivity).
  split; [exact H1|].
  pose proof (proj1 (X15_distinct_seconds_fetch_in_insertion_order
                       Sample.table Fixture.sid 21 H1)) as H.
  rewrite H. vm_compute. reflexivity.
Defined.

(** ** The commands *)

Lemma rev_take_rev {A} (n : nat) (l : list A) :
  rev (take n (rev l)) = drop (length l - n) l.
Proof.
  revert n. induction l as [|x tl IH] using rev_ind; intros n.
  - simpl. by rewrite take_nil.
  - rewrite rev_unit, length_app. simpl length. destruct n as [|n].
    + simpl. rewrite drop_ge; [reflexivity|]. rewrite length_app. simpl. lia.
    + simpl. rewrite IH.
      replace (length tl + 1 - S n)%nat with (length tl - n)%nat by lia.
      by rewrite drop_app_le by lia.
Qed.

(** The rows [view_history] lists: the last [count] rows of the session,
    in insertion order. *)
Lemma viewed_rows (table : list chat_log) (origin : str) (count : Z) :
  (0 < count)%Z ->
  rev (select_recent_by_id table origin count)
  = drop (length (filter (fun r => session_id r = origin) table)
          - Z.to_nat count)
      (filter (fun r => session_id r = origin) table).
Proof.
  intros Hpos. unfold select_recent_by_id, sql_limit.
  destruct (Z.ltb_spec count 0); [lia|]. apply rev_take_rev.
Qed.

(** X16: for a count between 1 and 50 and a session with rows, the text
    [view_history] hands to the renderer lists the last [count] rows of
    the session (all of them when there are fewer), oldest first, whatever
    their timestamps; the handler yields the rendered image, or the failure
    message when rendering raises. *)
Theorem X16_view_lists_latest_rows_oldest_first (p : plugin) (origin : str)
    (text_to_image : str -> rendering) (count : Z) (table : list chat_log) :
  (1 <= count <= 50)%Z ->
  db_cursor p = Some table ->
  filter (fun r => session_id r = origin) table <> [] ->
  let rows := filter (fun r => session_id r = origin) table in
  let shown := drop (length rows - Z.to_nat count) rows in
  shown <> []
  /\ view_history p origin text_to_image count
     = match text_to_image (view_text shown) with
       | Rendered url => [image_result url]
       | RenderFailed message => [plain_result (Msg.view_failed ++ message)]
       end.
Proof.
  intros Hcount Hdb Hrows rows shown. unfold view_history.
  destruct (Z.leb_spec count 0); [lia|].
  destruct (Z.ltb_spec 50 count); [lia|]. simpl. rewrite Hdb.
  rewrite (viewed_rows table origin count ltac:(lia)). fold rows shown.
  assert (Hshown : shown <> []).
  { unfold shown. intros Hnil. apply (f_equal length) in Hnil.
    rewrite length_drop in Hnil. simpl in Hnil.
    assert (length rows <> 0)%nat.
    { intros Hzero. apply Hrows. by apply nil_length_inv. }
    lia. }
  split; [exact Hshown|].
  destruct shown; [congruence|reflexivity].
Qed.

Lemma X16_view_lists_latest_rows_oldest_first_witness :
  (1 <= 2 <= 50)%Z
  /\ filter (fun r => session_id r = Fixture.sid) Sample.table <> []
  /\ view_history Sample.store Fixture.sid
       (fun text =>
          if Py.str_eqb text (view_text [Sample.r3; Sample.r4])
          then Rendered (utf8 "file:///tmp/out.png")
          else RenderFailed (utf8 "other text"))
       2
     = [image_result (utf8 "file:///tmp/out.png")].
Proof.
  assert (H1 : (1 <= 2 <= 50)%Z) by lia.
  assert (H2 : filter (fun r => session_id r = Fixture.sid) Sample.table
               <> []) by (vm_compute; discriminate).
  pose proof (proj2 (X16_view_lists_latest_rows_oldest_first Sample.store
                       Fixture.sid
                       (fun text =>
                          if Py.str_eqb text
                               (view_text [Sample.r3; Sample.r4])
                          then Rendered (utf8 "file:///tmp/out.png")
                          else RenderFailed (utf8 "other text"))
                       2 Sample.table H1 eq_refl H2)) as H.
  split; [exact H1|]. split; [exact H2|].
  rewrite H. vm_compute. reflexivity.
Defined.

(** X17: [view_history] yields an image only when the count lies between
    1 and 50, the cursor exists and the session has rows; it is then the
    rendering of the listing of the session's latest rows. *)
Theorem X17_view_yields_image_only_in_range (p : plugin) (origin : str)
    (text_to_image : str -> rendering) (count : Z) (url : str) :
  view_history p origin text_to_image count = [image_result url] ->
  (1 <= count <= 50)%Z
  /\ exists table,
       db_cursor p = Some table
       /\ filter (fun r => session_id r = origin) table <> []
       /\ text_to_image
            (view_text
               (drop (length (filter (fun r => session_id r = origin) table)
                      - Z.to_nat count)
                  (filter (fun r => session_id r = origin) table)))
          = Rendered url.
Proof.
  unfold view_history.
  destruct (Z.leb_spec count 0); [discriminate|].
  destruct (Z.ltb_spec 50 count); [discriminate|]. simpl.
  destruct (db_cursor p) as [table|]; [|discriminate].
  rewrite (viewed_rows table origin count ltac:(lia)).
  intros Hview. split; [lia|]. exists table. split; [reflexivity|]. split.
  - intros Hnil. rewrite Hnil in Hview. simpl in Hview. discriminate.
  - destruct (drop _ _); [discriminate|].
    destruct (text_to_image _); [|discriminate]. by injection Hview as ->.
Qed.

Lemma X17_view_yields_image_only_in_range_witness :
  view_history Sample.store Fixture.sid Sample.render 5
  = [image_result (utf8 "file:///tmp/out.png")]
  /\ (1 <= 5 <= 50)%Z.
Proof.
  assert (H : view_history Sample.store Fixture.sid Sample.render 5
              = [image_result (utf8 "file:///tmp/out.png")])
    by (vm_compute; reflexivity).
  split; [exact H|].
  exact (proj1 (X17_view_yields_image_only_in_range _ _ _ _ _ H)).
Defined.

Lemma filter_other_session (table : list chat_log) (origin sid : str) :
  sid <> origin ->
  filter (fun r => session_id r = sid)
    (filter (fun r => session_id r <> origin) table)
  = filter (fun r => session_id r = sid) table.
Proof.
  intros Hne. induction table as [|r tl IH]; [reflexivity|].
  rewrite (filter_cons (fun r => session_id r <> origin)).
  rewrite (filter_cons (fun r => session_id r = sid) r tl).
  destruct (decide (session_id r <> origin)) as [Hr|Hr].
  - rewrite filter_cons. by rewrite IH.
  - rewrite IH. destruct (decide (session_id r = sid)) as [Hs|Hs];
      [|reflexivity].
    exfalso. apply Hr. congruence.
Qed.


(** ** What the handler reads of the image directory *)

Lemma image_parts_same (w w' : world) (names : list str) :
  Forall (fun name =>
            _path_to_base64 w' (os_path_join Lit.images_dir name)
            = _path_to_base64 w (os_path_join Lit.images_dir name)) names ->
  image_parts w' names = image_parts w names.
Proof.
  unfold image_parts. induction 1 as [|name tl Hname _ IH]; [reflexivity|].
  cbn [omap list_omap]. cbv zeta. by rewrite Hname, IH.
Qed.

Lemma decode_row_same (w w' : world) (bot : str) (r : history_row) :
  resolves_alike w w' (row_message_text r) ->
  decode_row w' bot r = decode_row w bot r.
Proof.
  intros Hr. unfold decode_row, content_list.
  by rewrite (image_parts_same w w' _ Hr).
Qed.

Lemma decode_history_same (w w' : world) (bot : str)
    (rows : list history_row) :
  Forall (fun r => resolves_alike w w' (row_message_text r)) rows ->
  decode_history w' bot rows = decode_history w bot rows.
Proof.
  unfold decode_history. induction 1 as [|r tl Hr _ IH]; [reflexivity|].
  cbn [omap list_omap]. by rewrite (decode_row_same w w' bot r Hr), IH.
Qed.

Lemma enhance_current_turn_same (w w' : world) (text : str)
    (l : list entry) :
  resolves_alike w w' text ->
  enhance_current_turn w' text l = enhance_current_turn w text l.
Proof.
  intros Ht. unfold enhance_current_turn.
  destruct (find_last_user l) as [i|]; [|reflexivity].
  apply list_alter_ext; [|reflexivity]. intros e _.
  unfold enhance_entry. by rewrite (image_parts_same w w' _ Ht).
Qed.

Lemma select_recent_elem (table : list chat_log) (sid : str) (limit : Z)
    (r : chat_log) :
  r ∈ select_recent table sid limit ->
  r ∈ filter (fun r => session_id r = sid) table.
Proof.
  unfold select_recent, sql_limit. intros Hr.
  apply order_by_timestamp_desc_elem.
  destruct (limit <? 0)%Z; [exact Hr|].
  apply elem_of_take in Hr as (i & Hr & _).
  by apply list_elem_of_lookup_2 in Hr.
Qed.

(** The handler reads the image directory through the names found in the
    rows of its own session only. *)
Lemma inject_reads_own_images (p p' : plugin) (ev : event) (st : pystate)
    (table table' : list chat_log) :
  db_cursor p = Some table ->
  db_cursor p' = Some table' ->
  plugin_config p' = plugin_config p ->
  filter (fun r => session_id r = unified_msg_origin ev) table'
  = filter (fun r => session_id r = unified_msg_origin ev) table ->
  same_images (plugin_world p) (plugin_world p')
    (filter (fun r => session_id r = unified_msg_origin ev) table) ->
  inject_chat_history p' ev st = inject_chat_history p ev st.
Proof.
  destruct p as [cfg db w], p' as [cfg' db' w']. simpl.
  intros -> -> -> Hrows Hsame.
  unfold inject_chat_history, inject_context, max_history_messages. simpl.
  destruct (negb _); [reflexivity|].
  destruct (_ <=? 0)%Z; [reflexivity|].
  unfold inject_body, bind, fetchall. simpl.
  destruct (contexts_or_new st) as [[l|e] st1]; [|reflexivity].
  destruct (clear_req_contexts st1) as [[u|e] st2]; [|reflexivity].
  destruct (negb (Sqlite.encodable _)); [reflexivity|].
  destruct (negb (Sqlite.fits_int64 _)); [reflexivity|].
  unfold ret, select_recent. rewrite Hrows.
  fold (select_recent table (unified_msg_origin ev)
          (default 20%Z (cfg_max_history_messages cfg) + 1)).
  assert (Hall : Forall (fun r => resolves_alike w w' (row_message_text r))
                   (map project
                      (select_recent table (unified_msg_origin ev)
                         (default 20%Z (cfg_max_history_messages cfg) + 1)))).
  { apply Forall_forall. intros hr Hhr.
    apply list_elem_of_fmap in Hhr as (r & -> & Hr).
    apply select_recent_elem in Hr.
    unfold same_images in Hsame. rewrite Forall_forall in Hsame.
    exact (Hsame r Hr). }
  destruct (map project _) as [|cur rest]; [reflexivity|].
  apply Forall_cons in Hall as [Hcur Hrest].
  rewrite (decode_history_same w w' _ (rev rest) (Forall_rev Hrest)).
  unfold read_list, write_list. cbv beta.
  by rewrite (enhance_current_turn_same w w' _ _ Hcur).
Qed.

Section ClearHistory.

Variable remove : world -> str -> option world.

Lemma clear_history_store (p : plugin) (origin : str)
    (table : list chat_log) :
  db_cursor p = Some table ->
  plugin_config (fst (clear_history remove p origin)) = plugin_config p
  /\ db_cursor (fst (clear_history remove p origin))
     = Some (filter (fun r => session_id r <> origin) table).
Proof.
  intros Hdb. unfold clear_history. rewrite Hdb.
  by destruct (remove_images _ _ _).
Qed.

(** X18: [clear_history] deletes the rows of its own session and no
    others: the rows of every other session stay in the table in their
    order.  The files it removes are shared, though: the injection handler
    behaves for another session exactly as before the command provided
    every file name found in that session's rows resolves after the command
    as it did before. *)
Theorem X18_clear_leaves_other_sessions_alone (p : plugin) (origin : str)
    (table : list chat_log) (ev : event) (st : pystate) :
  db_cursor p = Some table ->
  unified_msg_origin ev <> origin ->
  let p' := fst (clear_history remove p origin) in
  let others := filter (fun r => session_id r = unified_msg_origin ev) table in
  (exists table',
      db_cursor p' = Some table'
      /\ filter (fun r => session_id r = unified_msg_origin ev) table'
         = others)
  /\ (same_images (plugin_world p) (plugin_world p') others ->
      inject_chat_history p' ev st = inject_chat_history p ev st).
Proof.
  intros Hdb Hother p' others.
  destruct (clear_history_store p origin table Hdb) as [Hcfg Hdb'].
  fold p' in Hcfg, Hdb'. split.
  - eexists. split; [exact Hdb'|]. by apply filter_other_session.
  - intros Hsame.
    apply (inject_reads_own_images p p' ev st table
             (filter (fun r => session_id r <> origin) table));
      [exact Hdb|exact Hdb'|exact Hcfg| |exact Hsame].
    by apply filter_other_session.
Qed.




End ClearHistory.

Lemma X18_clear_leaves_other_sessions_alone_witness :
  db_cursor Sample.store = Some Sample.table
  /\ unified_msg_origin Sample.other_ev <> Fixture.sid
  /\ same_images (plugin_world Sample.store)
       (plugin_world (fst (clear_history Sample.unlink Sample.store
                             Fixture.sid)))
       (filter (fun r => session_id r = unified_msg_origin Sample.other_ev)
          Sample.table)
  /\ inject_chat_history
       (fst (clear_history Sample.unlink Sample.store Fixture.sid))
       Sample.other_ev Fixture.st_hi
     = inject_chat_history Sample.store Sample.other_ev Fixture.st_hi.
Proof.
  assert (H1 : db_cursor Sample.store = Some Sample.table) by reflexivity.
  assert (H2 : unified_msg_origin Sample.other_ev <> Fixture.sid)
    by (vm_compute; discriminate).
  assert (H3 : same_images (plugin_world Sample.store)
                 (plugin_world (fst (clear_history Sample.unlink Sample.store
                                       Fixture.sid)))
                 (filter (fun r => session_id r
                                   = unified_msg_origin Sample.other_ev)
                    Sample.table)).
  { vm_compute. constructor; [|constructor].
    constructor; [reflexivity|constructor]. }
  split; [exact H1|]. split; [exact H2|]. split; [exact H3|].
  exact (proj2 (X18_clear_leaves_other_sessions_alone Sample.unlink
                  Sample.store Fixture.sid Sample.table Sample.other_ev
                  Fixture.st_hi H1 H2) H3).
Defined.

(** The proviso of X18 is needed: when a row of another session names a
    file that the cleared session names too, the picture disappears from
    that session's injected history. *)
Example clear_strips_pictures_shared_with_another_session :
  let p' := fst (clear_history Sample.unlink Sample.shared_store
                   Fixture.sid) in
  contexts_value
    (inject_chat_history Sample.shared_store Sample.other_ev Fixture.st_hi)
  = Some [Entry Lit.user
            (Parts [TextPart (utf8 "User: "); ImageUrl Fixture.uri_a;
                    TextPart (utf8 "mine")])]
  /\ contexts_value (inject_chat_history p' Sample.other_ev Fixture.st_hi)
     = Some [Entry Lit.user (Str (utf8 "User: mine"))].
Proof. vm_compute. split; reflexivity. Qed.



(** ** The name of a downloaded file *)

Lemma lacks_app (c : N) (a b : str) :
  lacks c (a ++ b) = lacks c a && lacks c b.
Proof. apply forallb_app. Qed.

Lemma lacks_drop (c : N) (n : nat) (s : str) :
  lacks c s = true -> lacks c (drop n s) = true.
Proof.
  revert n. induction s as [|x tl IH]; intros n H; [by destruct n|].
  destruct n as [|n]; [exact H|]. simpl in H.
  apply andb_prop in H as [_ H]. exact (IH n H).
Qed.

Lemma rfind_none (c : N) (s : str) :
  Download.rfind c s = None -> lacks c s = true.
Proof.
  induction s as [|x tl IH]; [reflexivity|]. simpl.
  destruct (Download.rfind c tl); [discriminate|].
  destruct (x =? c) eqn:E; [discriminate|]. intros _.
  unfold lacks. simpl. rewrite ?E. simpl. by apply IH.
Qed.

Lemma rfind_some (c : N) (s : str) (i : nat) :
  Download.rfind c s = Some i ->
  exists pre post,
    s = pre ++ c :: post /\ length pre = i /\ lacks c post = true.
Proof.
  revert i. induction s as [|x tl IH]; intros i; [discriminate|]. simpl.
  destruct (Download.rfind c tl) as [j|] eqn:Hj.
  - intros [= <-]. destruct (IH j eq_refl) as (pre & post & -> & <- & Hp).
    by exists (x :: pre), post.
  - destruct (N.eqb_spec x c) as [->|_]; [|discriminate]. intros [= <-].
    exists [], tl. split; [reflexivity|]. split; [reflexivity|].
    by apply rfind_none.
Qed.

Lemma rfind_app (c : N) (a b : str) :
  Download.rfind c (a ++ b)
  = match Download.rfind c b with
    | Some i => Some (length a + i)%nat
    | None => Download.rfind c a
    end.
Proof.
  induction a as [|x tl IH]; simpl.
  - by destruct (Download.rfind c b).
  - rewrite IH. destruct (Download.rfind c b); [reflexivity|].
    by destruct (Download.rfind c tl).
Qed.

Lemma rfind_lt (c : N) (s : str) (i : nat) :
  Download.rfind c s = Some i -> (i < length s)%nat.
Proof.
  intros H. destruct (rfind_some c s i H) as (pre & post & -> & <- & _).
  rewrite length_app. simpl. lia.
Qed.

Lemma rfind_lacks (c : N) (s : str) :
  lacks c s = true -> Download.rfind c s = None.
Proof.
  induction s as [|x tl IH]; [reflexivity|]. unfold lacks. simpl.
  intros H. apply andb_prop in H as [Hx H]. apply negb_true_iff in Hx.
  by rewrite (IH H), Hx.
Qed.

(** The extension [os.path.splitext] returns is empty, or a dot followed
    by characters among which there is no ['/']. *)
Lemma splitext_ext (p : str) :
  snd (Download.splitext p) = []
  \/ exists rest,
       snd (Download.splitext p) = 46 :: rest /\ lacks 47 rest = true.
Proof.
  unfold Download.splitext.
  destruct (Download.rfind 46 p) as [d|] eqn:Hd.
  2:{ left. destruct (Download.rfind 47 p) as [s|]; [|reflexivity].
      destruct (Z.ltb_spec (Z.of_nat s) (-1)); [lia|reflexivity]. }
  destruct (rfind_some 46 p d Hd) as (pre & post & Hp & Hlen & _).
  assert (Hdrop : drop d p = 46 :: post).
  { rewrite Hp, <- Hlen. by rewrite drop_app_length. }
  destruct (Download.rfind 47 p) as [s|] eqn:Hs.
  - destruct (Z.ltb_spec (Z.of_nat s) (Z.of_nat d)); [|by left].
    destruct (existsb _ _); [|by left]. right. rewrite Nat2Z.id. simpl.
    exists post. split; [exact Hdrop|].
    destruct (rfind_some 47 p s Hs) as (pre' & post' & Hp' & Hlen' & Hfree).
    assert (Hpost : post = drop (d - s) post').
    { assert (H1 : drop (S d) p = post).
      { replace (S d) with (d + 1)%nat by lia. rewrite <- drop_drop, Hdrop.
        reflexivity. }
      rewrite <- H1. rewrite Hp' at 1.
      replace (S d) with (length pre' + S (d - s))%nat by lia.
      rewrite drop_app_add. reflexivity. }
    rewrite Hpost. by apply lacks_drop.
  - destruct (Z.ltb_spec (-1) (Z.of_nat d)); [|lia].
    destruct (existsb _ _); [|by left]. right. rewrite Nat2Z.id. simpl.
    exists post. split; [exact Hdrop|].
    pose proof (rfind_none 47 p Hs) as Hfree.
    apply (lacks_drop 47 (d + 1)) in Hfree.
    by rewrite <- drop_drop, Hdrop in Hfree.
Qed.

Lemma file_ext_cases (url : str) :
  Download.file_ext url = Download.png
  \/ (Download.file_ext url
      = snd (Download.splitext (Download.before_query url))
      /\ (2 <= length (Download.file_ext url) <= 5)%nat).
Proof.
  unfold Download.file_ext.
  destruct (snd (Download.splitext (Download.before_query url)))
    as [|c ext] eqn:He.
  - by left.
  - cbn [Py.truthy].
    destruct (Nat.ltb_spec 5 (length (c :: ext))); [by left|].
    destruct (Nat.ltb_spec (length (c :: ext)) 2); [by left|].
    right. simpl. split; [reflexivity|]. simpl in *. lia.
Qed.

Lemma file_ext_shape (url : str) :
  (2 <= length (Download.file_ext url) <= 5)%nat
  /\ exists rest,
       Download.file_ext url = 46 :: rest /\ lacks 47 rest = true.
Proof.
  destruct (file_ext_cases url) as [->|[Heq Hlen]].
  - split; [simpl; lia|]. by exists (utf8 "png").
  - split; [exact Hlen|]. rewrite Heq in *.
    destruct (splitext_ext (Download.before_query url)) as [Hnil|Hex];
      [|exact Hex].
    rewrite Hnil in Hlen. simpl in Hlen. lia.
Qed.

Lemma string_of_uint_digits (d : Decimal.uint) :
  forallb is_digit (Utf8.bytes (NilEmpty.string_of_uint d)) = true.
Proof. induction d; simpl; auto. Qed.

Lemma forallb_weaken (P Q : N -> bool) (s : str) :
  (forall c, P c = true -> Q c = true) ->
  forallb P s = true -> forallb Q s = true.
Proof.
  intros HPQ. induction s as [|c tl IH]; [reflexivity|]. simpl.
  intros H. apply andb_prop in H as [Hc H]. by rewrite (HPQ c Hc), (IH H).
Qed.

Lemma digit_not (c x : N) :
  (x < 48 \/ 57 < x) -> is_digit c = true -> negb (c =? x) = true.
Proof.
  unfold is_digit. intros Hx H. apply andb_prop in H as [H1 H2].
  apply N.leb_le in H1, H2. apply negb_true_iff, N.eqb_neq. lia.
Qed.

Lemma hex_not (c x : N) :
  (x < 48 \/ (57 < x /\ x < 97) \/ 102 < x) ->
  Download.is_hex c = true -> negb (c =? x) = true.
Proof.
  unfold Download.is_hex. intros Hx H.
  apply negb_true_iff, N.eqb_neq.
  apply orb_prop in H as [H|H]; apply andb_prop in H as [H1 H2];
    apply N.leb_le in H1, H2; lia.
Qed.

(** The part of the name in front of the extension has neither ['/'] nor
    [']']. *)
Lemma filename_stem (now : N) (suffix : str) (x : N) :
  x = 47 \/ x = 93 ->
  forallb Download.is_hex suffix = true ->
  lacks x (Download.decimal now ++ utf8 "_" ++ suffix) = true.
Proof.
  intros Hx Hhex. rewrite !lacks_app.
  assert (H1 : lacks x (Download.decimal now) = true).
  { apply (forallb_weaken is_digit); [|apply string_of_uint_digits].
    intros c. apply digit_not. lia. }
  assert (H2 : lacks x (utf8 "_") = true) by (by destruct Hx as [->| ->]).
  assert (H3 : lacks x suffix = true).
  { apply (forallb_weaken Download.is_hex); [|exact Hhex].
    intros c. apply hex_not. lia. }
  by rewrite H1, H2, H3.
Qed.

Lemma os_path_join_relative (dir : str) (c : N) (tl : str) :
  c <> 47 -> os_path_join dir (c :: tl) = dir ++ [47] ++ c :: tl.
Proof.
  intros Hc. unfold os_path_join.
  destruct c as [|q]; [reflexivity|].
  do 6 (destruct q as [q|q|]; try reflexivity).
  congruence.
Qed.

Lemma filename_lacks (now : N) (suffix url : str) (x : N) :
  x = 47 \/ x = 93 ->
  forallb Download.is_hex suffix = true ->
  lacks x (Download.filename now suffix url)
  = lacks x (Download.file_ext url).
Proof.
  intros Hx Hhex. unfold Download.filename.
  rewrite !app_assoc, lacks_app, <- !app_assoc.
  by rewrite (filename_stem now suffix x Hx Hhex).
Qed.

(** X21: the name a download is saved under has an extension of two to
    five characters that starts with a dot, and holds no ['/']: joined to
    the image directory it names a file directly inside that directory. *)
Theorem X21_saved_name_stays_in_image_directory (now : N)
    (suffix url : str) :
  forallb Download.is_hex suffix = true ->
  let name := Download.filename now suffix url in
  lacks 47 name = true
  /\ os_path_join Lit.images_dir name = Lit.images_dir ++ [47] ++ name
  /\ (2 <= length (Download.file_ext url) <= 5)%nat
  /\ exists rest, Download.file_ext url = 46 :: rest.
Proof.
  intros Hhex name.
  destruct (file_ext_shape url) as (Hlen & rest & Hext & Hrest).
  assert (Hfree : lacks 47 name = true).
  { unfold name. rewrite (filename_lacks now suffix url 47 (or_introl eq_refl) Hhex).
    rewrite Hext. unfold lacks in *. simpl. exact Hrest. }
  split; [exact Hfree|]. split; [|split; [exact Hlen|by exists rest]].
  destruct name as [|c tl]; [reflexivity|].
  apply os_path_join_relative. unfold lacks in Hfree. simpl in Hfree.
  apply andb_prop in Hfree as [Hc _].
  by apply negb_true_iff, N.eqb_neq in Hc.
Qed.

Lemma X21_saved_name_stays_in_image_directory_witness :
  forallb Download.is_hex Sample.hex8 = true
  /\ Download.filename 1700000000 Sample.hex8 Sample.jpeg_url
     = utf8 "1700000000_ab12cd34.jpeg"
  /\ os_path_join Lit.images_dir
       (Download.filename 1700000000 Sample.hex8 Sample.jpeg_url)
     = utf8 "data/persistent_chat/images/1700000000_ab12cd34.jpeg".
Proof.
  assert (H1 : forallb Download.is_hex Sample.hex8 = true)
    by (vm_compute; reflexivity).
  split; [exact H1|]. split; [vm_compute; reflexivity|].
  pose proof (proj1 (proj2 (X21_saved_name_stays_in_image_directory
                              1700000000 Sample.hex8 Sample.jpeg_url H1)))
    as H.
  rewrite H. vm_compute. reflexivity.
Defined.

Lemma before_query_base (base query : str) :
  lacks 63 base = true ->
  Download.before_query (base ++ 63 :: query) = base
  /\ Download.before_query base = base.
Proof.
  induction base as [|c tl IH]; intros H; [by split|].
  unfold lacks in H. simpl in H. apply andb_prop in H as [Hc H].
  apply negb_true_iff in Hc. destruct (IH H) as [IH1 IH2].
  simpl. rewrite Hc. by rewrite IH1, IH2.
Qed.

(** X22: whatever follows the first ['?'] of the URL has no influence on
    the name the download is saved under. *)
Theorem X22_query_string_does_not_change_the_name (now : N)
    (suffix base query : str) :
  lacks 63 base = true ->
  Download.filename now suffix (base ++ 63 :: query)
  = Download.filename now suffix base.
Proof.
  intros H. destruct (before_query_base base query H) as [H1 H2].
  unfold Download.filename, Download.file_ext. by rewrite H1, H2.
Qed.

Lemma X22_query_string_does_not_change_the_name_witness :
  lacks 63 (utf8 "https://example.org/pics/cat.jpeg") = true
  /\ Download.filename 1700000000 Sample.hex8
       (utf8 "https://example.org/pics/cat.jpeg" ++ 63 :: utf8 "size=large")
     = Download.filename 1700000000 Sample.hex8
         (utf8 "https://example.org/pics/cat.jpeg").
Proof.
  assert (H1 : lacks 63 (utf8 "https://example.org/pics/cat.jpeg") = true)
    by (vm_compute; reflexivity).
  split; [exact H1|].
  exact (X22_query_string_does_not_change_the_name 1700000000 Sample.hex8
           _ (utf8 "size=large") H1).
Defined.

(** X23: the name a download is saved under comes back from its marker
    exactly when the extension taken from the URL holds no [']']: then the
    marker yields the name and nothing else, and otherwise no text at all
    makes the pattern yield that name. *)
Theorem X23_saved_name_survives_marker_unless_bracket (now : N)
    (suffix url : str) :
  forallb Download.is_hex suffix = true ->
  let name := Download.filename now suffix url in
  (bracket_free (Download.file_ext url) = true ->
   ImagePattern.findall (marker name) = [name]
   /\ ImagePattern.sub_empty (marker name) = [])
  /\ (bracket_free (Download.file_ext url) = false ->
      forall s, name ∉ ImagePattern.findall s).
Proof.
  intros Hhex name.
  assert (Hfree : bracket_free name = bracket_free (Download.file_ext url)).
  { change (lacks 93 name = lacks 93 (Download.file_ext url)).
    apply filename_lacks; [by right|exact Hhex]. }
  split.
  - intros Hext. rewrite <- Hfree in Hext.
    assert (Hne : name <> []).
    { destruct (file_ext_shape url) as (_ & rest & Hrest & _).
      unfold name, Download.filename. rewrite Hrest.
      intros Hnil. apply (f_equal length) in Hnil.
      rewrite !length_app in Hnil. simpl in Hnil. lia. }
    unfold ImagePattern.findall, ImagePattern.sub_empty.
    rewrite <- (app_nil_r (marker name)).
    by rewrite (findall_marker name [] Hne Hext), (sub_marker name [] Hne Hext).
  - intros Hext s Hin. rewrite <- Hfree in Hext.
    destruct (findall_from_names s O name Hin) as [_ Hclean]. congruence.
Qed.

Lemma X23_saved_name_survives_marker_unless_bracket_witness :
  forallb Download.is_hex Sample.hex8 = true
  /\ bracket_free (Download.file_ext Sample.jpeg_url) = true
  /\ ImagePattern.findall
       (marker (Download.filename 1700000000 Sample.hex8 Sample.jpeg_url))
     = [Download.filename 1700000000 Sample.hex8 Sample.jpeg_url].
Proof.
  assert (H1 : forallb Download.is_hex Sample.hex8 = true)
    by (vm_compute; reflexivity).
  assert (H2 : bracket_free (Download.file_ext Sample.jpeg_url) = true)
    by (vm_compute; reflexivity).
  split; [exact H1|]. split; [exact H2|].
  exact (proj1 (proj1 (X23_saved_name_survives_marker_unless_bracket
                         1700000000 Sample.hex8 Sample.jpeg_url H1) H2)).
Defined.

(** X24: when the last path component of the URL, query string aside,
    holds no dot, the download is saved with the extension [.png]. *)
Theorem X24_no_dot_in_last_component_gives_png (now : N)
    (suffix url dir base : str) :
  Download.before_query url = dir ++ 47 :: base ->
  lacks 46 base = true -> lacks 47 base = true ->
  Download.file_ext url = Download.png
  /\ Download.filename now suffix url
     = Download.decimal now ++ utf8 "_" ++ suffix ++ utf8 ".png".
Proof.
  intros Hurl Hdot Hsep.
  assert (Hext : snd (Download.splitext (dir ++ 47 :: base)) = []).
  { unfold Download.splitext. rewrite !rfind_app. simpl.
    rewrite (rfind_lacks 46 base Hdot), (rfind_lacks 47 base Hsep). simpl.
    destruct (Download.rfind 46 dir) as [i|] eqn:Hi.
    - pose proof (rfind_lt 46 dir i Hi).
      destruct (Z.ltb_spec (Z.of_nat (length dir + 0)) (Z.of_nat i));
        [lia|reflexivity].
    - destruct (Z.ltb_spec (Z.of_nat (length dir + 0)) (-1));
        [lia|reflexivity]. }
  assert (Hpng : Download.file_ext url = Download.png).
  { unfold Download.file_ext. by rewrite Hurl, Hext. }
  split; [exact Hpng|]. unfold Download.filename. by rewrite Hpng.
Qed.

Lemma X24_no_dot_in_last_component_gives_png_witness :
  Download.before_query Sample.plain_url
  = utf8 "https://multimedia.example.com.cn" ++ 47 :: utf8 "download"
  /\ lacks 46 (utf8 "download") = true
  /\ lacks 47 (utf8 "download") = true
  /\ Download.filename 1700000000 Sample.hex8 Sample.plain_url
     = utf8 "1700000000_ab12cd34.png".
Proof.
  assert (H1 : Download.before_query Sample.plain_url
               = utf8 "https://multimedia.example.com.cn"
                 ++ 47 :: utf8 "download") by (vm_compute; reflexivity).
  assert (H2 : lacks 46 (utf8 "download") = true) by (vm_compute; reflexivity).
  assert (H3 : lacks 47 (utf8 "download") = true) by (vm_compute; reflexivity).
  split; [exact H1|]. split; [exact H2|]. split; [exact H3|].
  pose proof (proj2 (X24_no_dot_in_last_component_gives_png 1700000000
                       Sample.hex8 Sample.plain_url _ _ H1 H2 H3)) as H.
  rewrite H. vm_compute. reflexivity.
Defined.

(** ** Logging, then injecting *)

(** X25: when sqlite3 accepts the two parameters of the query and the
    rows of the session carry strictly increasing timestamps, the history
    the handler decodes is that of the rows before the newest one, limited
    to the last [max_history_messages] of them, oldest first; the newest
    row itself is never decoded into the history.  With injection enabled
    and a context list in the request, the list the handler leaves there is
    this history, collapsed and flattened. *)
Theorem X25_history_is_the_rows_before_the_newest (p : plugin) (ev : event)
    (table init : list chat_log) (newest : chat_log) :
  (0 < max_history_messages p)%Z ->
  db_cursor p = Some table ->
  fetch_binds p ev = true ->
  filter (fun r => session_id r = unified_msg_origin ev) table
  = init ++ [newest] ->
  strictly_increasing (init ++ [newest]) = true ->
  let history :=
    map fst
      (decode_history (plugin_world p) (self_id ev)
         (map project
            (drop (length init - Z.to_nat (max_history_messages p)) init))) in
  decoded_history p ev = history
  /\ forall st l,
       inject_context p = true ->
       req_contexts st = Some l ->
       contexts_value (inject_chat_history p ev st)
       = Some (finalize history).
Proof.
  intros Hpos Hdb Hbinds Hrows Hinc history.
  assert (Hdec : decoded_history p ev = history).
  { unfold decoded_history. rewrite Hdb, Hbinds.
    unfold select_recent. rewrite Hrows.
    rewrite (order_by_timestamp_desc_increasing _ Hinc), rev_unit.
    unfold sql_limit.
    destruct (Z.ltb_spec (max_history_messages p + 1) 0); [lia|].
    replace (Z.to_nat (max_history_messages p + 1))
      with (S (Z.to_nat (max_history_messages p))) by lia.
    cbn [take map]. rewrite <- map_rev, rev_take_rev. reflexivity. }
  split; [exact Hdec|]. intros st l Hon Hreq.
  by rewrite (inject_contexts_value p ev st Hon Hpos), Hreq, Hdec.
Qed.

Lemma X25_history_is_the_rows_before_the_newest_witness :
  (0 < max_history_messages Sample.store)%Z
  /\ fetch_binds Sample.store Fixture.ev = true
  /\ filter (fun r => session_id r = unified_msg_origin Fixture.ev)
       Sample.table
     = [Sample.r1; Sample.r3] ++ [Sample.r4]
  /\ strictly_increasing ([Sample.r1; Sample.r3] ++ [Sample.r4]) = true
  /\ decoded_history Sample.store Fixture.ev
     = [Entry Lit.user (Parts [TextPart (utf8 "Alice: one")]);
        Entry Lit.assistant (Parts [TextPart (utf8 "three")])].
Proof.
  assert (H1 : (0 < max_history_messages Sample.store)%Z) by reflexivity.
  assert (Hb : fetch_binds Sample.store Fixture.ev = true)
    by (vm_compute; reflexivity).
  assert (H2 : filter (fun r => session_id r = unified_msg_origin Fixture.ev)
                 Sample.table
               = [Sample.r1; Sample.r3] ++ [Sample.r4])
    by (vm_compute; reflexivity).
  assert (H3 : strictly_increasing ([Sample.r1; Sample.r3] ++ [Sample.r4])
               = true) by (vm_compute; reflexivity).
  split; [exact H1|]. split; [exact Hb|]. split; [exact H2|].
  split; [exact H3|].
  pose proof (proj1 (X25_history_is_the_rows_before_the_newest Sample.store
                       Fixture.ev Sample.table [Sample.r1; Sample.r3]
                       Sample.r4 H1 eq_refl Hb H2 H3)) as H.
  rewrite H. vm_compute. reflexivity.
Defined.
